(** * Qualification data manager: review tracking, filtering, export, pagination

    A shallow embedding of [src/data_manager.py], [src/utils.py] and the
    handlers of [src/app.py], with the properties of the review tool stated
    over it.  Tables are pandas data frames; the set of reviewed rows is a
    Python [set] of row labels. *)

From Stdlib Require Import ZArith List Floats Ascii String.
From Stdlib Require Import Uint63.
From stdpp Require Import base decidable option list strings gmap.

Open Scope Z_scope.

(** ** Values and frames *)

(** One cell of a data frame.  [CNum] is a float64 (a missing value is the
    float NaN; an integer cell is taken as the float64 of the same value),
    [CStr] a Python [str], [CBool] a Python [bool]. *)
Inductive cell :=
| CStr (s : string)
| CNum (f : float)
| CBool (b : bool).

(** A row carries its index label and its cells by column name. *)
Record row := Row { label : Z; cells : gmap string cell }.

(** A data frame: the column names in order, and the rows in order. *)
Record DataFrame := Frame { columns : list string; rows : list row }.

(** [pd.DataFrame()] *)
Definition empty_frame : DataFrame := Frame [] [].

(** [df.index] *)
Definition index (df : DataFrame) : list Z := map label (rows df).

(** [len(df)] *)
Definition len (df : DataFrame) : Z := Z.of_nat (length (rows df)).

(** [df.empty]: true when either axis has length zero. *)
Definition empty (df : DataFrame) : bool :=
  match rows df, columns df with
  | [], _ => true
  | _, [] => true
  | _, _ => false
  end.

Definition nan : float := PrimFloat.nan.

(** The cell of a row under a column; a cell the row does not hold reads as
    a missing value. *)
Definition row_cell (r : row) (c : string) : cell :=
  default (CNum nan) (cells r !! c).

(** [df[mask]] with the mask given row by row: boolean indexing keeps the
    columns and the order of the rows. *)
Definition select (p : row → bool) (df : DataFrame) : DataFrame :=
  Frame (columns df) (filter (λ r, p r = true) (rows df)).

(** [df[c] = ...] with the new value computed row by row: an existing column
    is overwritten in place, a new one is appended last. *)
Definition assign (c : string) (v : row → cell) (df : DataFrame) : DataFrame :=
  Frame (if decide (c ∈ columns df) then columns df else columns df ++ [c])
        (map (λ r, Row (label r) (<[c := v r]> (cells r))) (rows df)).

(** Exceptions raised by the library calls of the program. *)
Inductive exn :=
| KeyError (key : string)
| TypeError
| ReError (pattern : string)
| CsvError (msg : string).

Inductive result (A : Type) :=
| Ok (a : A)
| Raise (e : exn).
Arguments Ok {A} a.
Arguments Raise {A} e.

#[global] Instance result_ret : MRet result := λ A a, Ok a.
#[global] Instance result_bind : MBind result := λ A B k m,
  match m with
  | Ok a => k a
  | Raise e => Raise e
  end.

(** What the program takes from Python and pandas without defining it:
    the text of a float, the parsing of a number, the regular-expression
    engine and the CSV reader. *)
Class PyRuntime := {
  (** [str(x)] for a float64, as [astype(str)] writes it *)
  float_repr : float → string;
  (** one string cell under [pd.to_numeric(..., errors='coerce')]:
      the number it spells, NaN when it spells none *)
  parse_float : string → float;
  (** [re.compile(pat, re.IGNORECASE)] followed by
      [lambda x: pat.search(x) is not None]; [None] when the pattern is
      rejected with [re.error] *)
  re_compile : string → option (string → bool);
  (** [pd.read_csv] on the uploaded bytes *)
  read_csv : list Byte.byte → result DataFrame
}.

(** The arithmetic the statistics take from Python and pandas: the true
    division of two integers, [a / b] with [b] not zero, and
    [Series.mean()] of a numeric column given with its missing values. *)
Class PyNumeric := {
  int_truediv : Z → Z → float;
  series_mean : list float → float
}.

(** ** The pandas operations the program uses *)

Section pandas.
Context `{PyRuntime}.

(** [df[c]] read row by row. *)
Definition column (c : string) (df : DataFrame) : list cell :=
  map (λ r, row_cell r c) (rows df).

Definition is_bool (c : cell) : bool :=
  match c with CBool _ => true | _ => false end.

Definition is_str (c : cell) : bool :=
  match c with CStr _ => true | _ => false end.

Definition float_of_bool (b : bool) : float :=
  if b then 1%float else 0%float.

(** The number a non-string cell stands for in a comparison. *)
Definition num (c : cell) : float :=
  match c with
  | CNum f => f
  | CBool b => float_of_bool b
  | CStr _ => nan
  end.

Definition coerce_numeric (c : cell) : cell :=
  match c with
  | CStr s => CNum (parse_float s)
  | CNum f => CNum f
  | CBool b => CNum (float_of_bool b)
  end.

(** [pd.to_numeric(col, errors='coerce')], as the map it applies to each
    cell: a column of numeric dtype (here: all bool; all float is the same
    under [coerce_numeric]) is returned as it is, an object column is
    converted cell by cell, unconvertible cells becoming NaN. *)
Definition to_numeric (col : list cell) : cell → cell :=
  if forallb is_bool col then id else coerce_numeric.

(** [(df['score'] >= lo) & (df['score'] <= hi)] for one row. *)
Definition score_in_range (lo hi : float) (r : row) : bool :=
  let s := num (row_cell r "score") in
  negb (is_str (row_cell r "score")) && PrimFloat.leb lo s && PrimFloat.leb s hi.

(** [df[(df['score'] >= lo) & (df['score'] <= hi)]]: [KeyError] without the
    column, [TypeError] when a string cell is compared with a float. *)
Definition score_between (lo hi : float) (df : DataFrame) : result DataFrame :=
  if decide ("score" ∈ columns df) then
    if existsb is_str (column "score" df) then Raise TypeError
    else Ok (select (score_in_range lo hi) df)
  else Raise (KeyError "score").

(** Equality as [isin] tests it: Python's [==], with NaN found equal to NaN. *)
Definition py_eq (a b : cell) : bool :=
  match a, b with
  | CStr x, CStr y => bool_decide (x = y)
  | CStr _, _ | _, CStr _ => false
  | _, _ => PrimFloat.eqb (num a) (num b)
            || (PrimFloat.is_nan (num a) && PrimFloat.is_nan (num b))
  end.

Definition isin (vals : list cell) (c : cell) : bool := existsb (py_eq c) vals.

(** [df[df[c].isin(vals)]] *)
Definition isin_filter (c : string) (vals : list cell) (df : DataFrame)
  : result DataFrame :=
  if decide (c ∈ columns df) then Ok (select (λ r, isin vals (row_cell r c)) df)
  else Raise (KeyError c).

(** [df.index.isin(reviewed)] for one row. *)
Definition index_isin (reviewed : gset Z) (r : row) : bool :=
  bool_decide (label r ∈ reviewed).

(** One cell under [astype(str)]. *)
Definition astype_str (c : cell) : string :=
  match c with
  | CStr s => s
  | CNum f => float_repr f
  | CBool true => "True"
  | CBool false => "False"
  end.

(** The search step,
    [df[df.astype(str).apply(lambda x: x.str.contains(term, case=False,
    na=False)).any(axis=1)]].  [str.contains] takes [term] as a regular
    expression ([regex=True] is its default) and compiles it, which raises
    [re.error] for a malformed pattern.  On an empty frame [apply] does not
    run the lambda, and [any(axis=1)] is false for every row. *)
Definition search (term : string) (df : DataFrame) : result DataFrame :=
  if empty df then Ok (Frame (columns df) [])
  else match re_compile term with
       | None => Raise (ReError term)
       | Some found =>
           Ok (select (λ r, existsb (λ c, found (astype_str (row_cell r c)))
                                    (columns df)) df)
       end.

(** Python's bounds for a slice [l[start:stop]] of a sequence of length [n]. *)
Definition slice_bound (n i : Z) : Z :=
  if i <? 0 then Z.max 0 (i + n) else Z.min i n.

(** [df.iloc[start:stop]] *)
Definition iloc (start stop : Z) (df : DataFrame) : DataFrame :=
  let n := len df in
  let s := slice_bound n start in
  let e := slice_bound n stop in
  Frame (columns df) (take (Z.to_nat (e - s)) (drop (Z.to_nat s) (rows df))).

(** [df.loc[labels]] for labels that are all in the index: for each label in
    turn, the rows that carry it. *)
Definition loc (labels : list Z) (df : DataFrame) : DataFrame :=
  Frame (columns df)
        (labels ≫= λ l, filter (λ r, label r = l) (rows df)).

(** [Series.min()] and [Series.max()] of a numeric column: missing values
    are skipped ([skipna=True]); the result is NaN when nothing is left. *)
Definition fmin (a b : float) : float := if PrimFloat.ltb b a then b else a.
Definition fmax (a b : float) : float := if PrimFloat.ltb a b then b else a.

Definition present (col : list cell) : list float :=
  filter (λ f, PrimFloat.is_nan f = false) (map num col).

Definition series_min (col : list cell) : float :=
  match present col with
  | [] => nan
  | x :: xs => foldl fmin x xs
  end.

Definition series_max (col : list cell) : float :=
  match present col with
  | [] => nan
  | x :: xs => foldl fmax x xs
  end.

(** [isna()] on one cell. *)
Definition isna (c : cell) : bool :=
  match c with
  | CNum f => PrimFloat.is_nan f
  | _ => false
  end.

(** [Series.unique()]: the values in the order they first appear. *)
Fixpoint unique (col : list cell) : list cell :=
  match col with
  | [] => []
  | c :: col' => c :: filter (λ c', py_eq c c' = false) (unique col')
  end.

(** [Series.nunique()]: the number of distinct values, missing ones left
    out. *)
Definition nunique (col : list cell) : Z :=
  Z.of_nat (length (unique (filter (λ c, isna c = false) col))).

End pandas.

(** ** [src/data_manager.py] *)

Module DataManager.
Section data_manager.
Context `{PyRuntime}.

(** [st.session_state], as far as the manager uses it: the key
    [reviewed_items_json], absent at first.  The list is only ever read back
    through [set(...)]. *)
Record session_state := Session { reviewed_items_json : option (list Z) }.

(** The fields of a [DataManager] object. *)
Record t := Manager { data : option DataFrame; reviewed_items : gset Z }.

Definition _save_reviewed_state (self : t) (ss : session_state) : session_state :=
  Session (Some (elements (reviewed_items self))).

Definition _load_reviewed_state (self : t) (ss : session_state) : t :=
  match reviewed_items_json ss with
  | Some l => Manager (data self) (list_to_set l)
  | None => Manager (data self) ∅
  end.

Definition __init__ (ss : session_state) : t :=
  _load_reviewed_state (Manager None ∅) ss.

Definition load_data (df : DataFrame) (self : t) : t :=
  let data := df in
  let data :=
    if decide ("score" ∈ columns data) then
      assign "score" (λ r, to_numeric (column "score" data) (row_cell r "score")) data
    else
      assign "score" (λ _, CNum 0.5%float) data in
  Manager (Some data) (reviewed_items self).

Definition get_data (self : t) : DataFrame :=
  match data self with Some d => d | None => empty_frame end.

Definition mark_reviewed (row_index : Z) (self : t) (ss : session_state)
  : t * session_state :=
  let self := Manager (data self) ({[row_index]} ∪ reviewed_items self) in
  (self, _save_reviewed_state self ss).

Definition unmark_reviewed (row_index : Z) (self : t) (ss : session_state)
  : t * session_state :=
  let self := Manager (data self) (reviewed_items self ∖ {[row_index]}) in
  (self, _save_reviewed_state self ss).

Definition is_reviewed (row_index : Z) (self : t) : bool :=
  bool_decide (row_index ∈ reviewed_items self).

Definition get_reviewed_items (self : t) : gset Z := reviewed_items self.

Definition clear_reviewed_state (self : t) (ss : session_state)
  : t * session_state :=
  let self := Manager (data self) ∅ in
  (self, _save_reviewed_state self ss).

(** The keyword arguments of [filter_data]; a key that is not passed is
    [None]. *)
Record filters := Filters {
  languages : option (list cell);
  qualifications : option (list cell);
  score_min : option float;
  score_max : option float;
  review_status : option string;
  search_term : option string
}.

Definition filter_data (f : filters) (self : t) : result DataFrame :=
  match data self with
  | None => Ok empty_frame
  | Some data =>
      let filtered_df := data in
      filtered_df ←
        match languages f with
        | Some (v :: vs) => isin_filter "language" (v :: vs) filtered_df
        | _ => Ok filtered_df
        end;
      filtered_df ←
        match qualifications f with
        | Some (v :: vs) => isin_filter "qualification_name" (v :: vs) filtered_df
        | _ => Ok filtered_df
        end;
      filtered_df ←
        match score_min f, score_max f with
        | Some lo, Some hi => score_between lo hi filtered_df
        | _, _ => Ok filtered_df
        end;
      let filtered_df :=
        match review_status f with
        | Some status =>
            if decide (status = "reviewed") then
              select (index_isin (reviewed_items self)) filtered_df
            else if decide (status = "not_reviewed") then
              select (λ r, negb (index_isin (reviewed_items self) r)) filtered_df
            else filtered_df
        | None => filtered_df
        end in
      match search_term f with
      | Some (String a s) => search (String a s) filtered_df
      | _ => Ok filtered_df
      end
  end.

(** [filtered_df = None] is the default of the parameter. *)
Definition export_data_with_review_status
    (filtered_df : option DataFrame) (self : t) : DataFrame :=
  let export_df :=
    match filtered_df with
    | Some df => df
    | None => match data self with Some d => d | None => empty_frame end
    end in
  if negb (empty export_df) then
    assign "reviewed_status" (λ r, CBool (index_isin (reviewed_items self) r)) export_df
  else export_df.

(** The dictionary [get_review_stats] returns.  The integer 0 that stands
    for the percentage of an empty table is written as the float 0. *)
Record review_stats := ReviewStats {
  total : Z;
  reviewed : Z;
  pending : Z;
  review_percentage : float
}.

Definition get_review_stats `{PyNumeric} (self : t) : review_stats :=
  let total := match data self with Some d => len d | None => 0 end in
  let reviewed := Z.of_nat (size (reviewed_items self)) in
  ReviewStats total reviewed (total - reviewed)
    (if 0 <? total then PrimFloat.mul (int_truediv reviewed total) 100%float
     else 0%float).

(** The dictionary [get_score_distribution] returns. *)
Record score_distribution := ScoreDistribution { high : Z; medium : Z; low : Z }.

(** [len(df[mask])] with the mask given row by row. *)
Definition count (p : row → bool) (df : DataFrame) : Z := len (select p df).

#[warnings="-inexact-float"]
Definition get_score_distribution (self : t) : result score_distribution :=
  match data self with
  | None => Ok (ScoreDistribution 0 0 0)
  | Some d =>
      if decide ("score" ∈ columns d) then
        if existsb is_str (column "score" d) then Raise TypeError
        else
          let s r := num (row_cell r "score") in
          Ok (ScoreDistribution
                (count (λ r, PrimFloat.ltb 0.8%float (s r)) d)
                (count (λ r, PrimFloat.ltb 0.5%float (s r)
                             && PrimFloat.leb (s r) 0.8%float) d)
                (count (λ r, PrimFloat.leb (s r) 0.5%float) d))
      else Ok (ScoreDistribution 0 0 0)
  end.

End data_manager.
End DataManager.

(** ** [src/utils.py] *)

Module Utils.

(** [export_filtered_data], up to the frame that [to_csv(index=False)]
    writes out. *)
Definition export_filtered_data (df : DataFrame) (reviewed_items : gset Z)
  : DataFrame :=
  assign "reviewed_status" (λ r, CBool (index_isin reviewed_items r)) df.

Section utils.
Context `{PyRuntime} `{PyNumeric}.

(** The dictionary of [apply_score_styling]. *)
Record style := Style {
  background_color : string;
  border_color : string;
  color : string
}.

#[warnings="-inexact-float"]
Definition apply_score_styling (score : float) : style :=
  if PrimFloat.ltb 0.8%float score then Style "#d4edda" "#c3e6cb" "#155724"
  else if PrimFloat.ltb 0.5%float score then Style "#fff3cd" "#ffeaa7" "#856404"
  else Style "#f8d7da" "#f5c6cb" "#721c24".

#[warnings="-inexact-float"]
Definition get_color_for_score (score : float) : string :=
  if PrimFloat.ltb 0.8%float score then "#d4edda"
  else if PrimFloat.ltb 0.5%float score then "#fff3cd"
  else "#f8d7da".

#[warnings="-inexact-float"]
Definition get_border_color_for_score (score : float) : string :=
  if PrimFloat.ltb 0.8%float score then "#c3e6cb"
  else if PrimFloat.ltb 0.5%float score then "#ffeaa7"
  else "#f5c6cb".

Definition required_columns : list string :=
  ["language"; "questions"; "qualification_name"; "client_answer_text"; "score"].

Definition expected_columns : list string :=
  ["lang_id"; "language_id"; "client_questions"; "qualification_id";
   "client_qualification_name"; "client_qualification_id"; "client_answer_id";
   "preCode"; "qualificationAnswerDesc"; "qualificationAnswerId"].

(** [validate_csv_structure]: whether the table is valid, and the messages,
    those on missing required columns first. *)
Definition validate_csv_structure (df : DataFrame) : bool * list string :=
  let missing_columns :=
    map (λ col, "Missing required column: " ++ col)%string
        (filter (λ col, col ∉ columns df) required_columns) in
  let warnings :=
    if decide ("score" ∈ columns df) then
      let score_series :=
        map (to_numeric (column "score" df)) (column "score" df) in
      if existsb isna score_series then
        ["Some score values could not be converted to numbers."]
      else []
    else [] in
  let missing_optional :=
    filter (λ col, col ∉ columns df) expected_columns in
  let warnings :=
    match missing_optional with
    | [] => warnings
    | _ => warnings ++ [("Optional columns not found: "
                         ++ String.concat ", " missing_optional)%string]
    end in
  (bool_decide (length missing_columns = 0%nat), missing_columns ++ warnings).

(** The entries [get_summary_stats] adds for a table with a [score]
    column. *)
Record score_summary := ScoreSummary {
  avg_score : float;
  min_score : float;
  max_score : float;
  high_scores : Z;
  low_scores : Z
}.

(** The dictionary [get_summary_stats] returns.  The integer 0 that stands
    for the percentage of an empty table is written as the float 0. *)
Record summary_stats := SummaryStats {
  total_records : Z;
  reviewed_records : Z;
  languages : Z;
  qualifications : Z;
  score_entries : option score_summary;
  review_percentage : float
}.

#[warnings="-inexact-float"]
Definition get_summary_stats (df : DataFrame) (reviewed_items : gset Z)
  : summary_stats :=
  let total_records := len df in
  let reviewed_records :=
    Z.of_nat (length (filter (λ idx, idx ∈ reviewed_items) (index df))) in
  let languages :=
    if decide ("language" ∈ columns df) then nunique (column "language" df)
    else 0 in
  let qualifications :=
    if decide ("qualification_name" ∈ columns df) then
      nunique (column "qualification_name" df)
    else 0 in
  let score_entries :=
    if decide ("score" ∈ columns df) then
      let score_series :=
        map (to_numeric (column "score" df)) (column "score" df) in
      Some (ScoreSummary
              (series_mean (map num score_series))
              (series_min score_series)
              (series_max score_series)
              (Z.of_nat (length (filter (λ c, PrimFloat.ltb 0.8%float (num c) = true)
                                        score_series)))
              (Z.of_nat (length (filter (λ c, PrimFloat.leb (num c) 0.5%float = true)
                                        score_series))))
    else None in
  SummaryStats total_records reviewed_records languages qualifications
    score_entries
    (if 0 <? total_records then
       PrimFloat.mul (int_truediv reviewed_records total_records) 100%float
     else 0%float).

End utils.

End Utils.

(** ** [src/app.py] *)

Module App.
Section app.
Context `{PyRuntime}.

(** [st.session_state]: the uploaded table and the reviewed row labels. *)
Record session_state := Session {
  current_data : option DataFrame;
  reviewed_items : gset Z
}.

(** What a handler shows to the user. *)
Inductive output :=
| st_success_loaded (records : Z)
| st_write_info (nrows ncols : Z)
| st_error_loading (e : exn).

(** How a handler leaves [main]: it runs on, or returns at once. *)
Inductive control := Continue | Return.

(** The upload block of the sidebar ([main], the [uploaded_file] branch). *)
Definition upload (uploaded_file : option (list Byte.byte)) (ss : session_state)
  : session_state * list output * control :=
  match uploaded_file with
  | None => (ss, [], Continue)
  | Some file =>
      match read_csv file with
      | Ok df =>
          (Session (Some df) (reviewed_items ss),
           [st_success_loaded (len df);
            st_write_info (len df) (Z.of_nat (length (columns df)))],
           Continue)
      | Raise e => (ss, [st_error_loading e], Return)
      end
  end.

(** The button "Clear All Reviews". *)
Definition clear_all_reviews (ss : session_state) : session_state :=
  Session (current_data ss) ∅.

(** The bulk buttons under the table, on the labels of the checked rows. *)
Definition mark_selected (selected_indices : list Z) (ss : session_state)
  : session_state :=
  Session (current_data ss)
          (foldl (λ s idx, {[idx]} ∪ s) (reviewed_items ss) selected_indices).

Definition unmark_selected (selected_indices : list Z) (ss : session_state)
  : session_state :=
  Session (current_data ss)
          (foldl (λ s idx, s ∖ {[idx]}) (reviewed_items ss) selected_indices).

(** The table [main] works on: a copy of the uploaded one with [score] made
    numeric when the column is there. *)
Definition working_table (current : DataFrame) : DataFrame :=
  if decide ("score" ∈ columns current) then
    assign "score" (λ r, to_numeric (column "score" current) (row_cell r "score"))
           current
  else current.

(** The values of the filter widgets.  [slider] is what the score slider
    returns; it is only drawn when the table has a [score] column. *)
Record widgets := Widgets {
  selected_languages : list cell;
  slider : float * float;
  selected_qualifications : list cell;
  review_status : string;
  search_term : string
}.

Definition score_range (df : DataFrame) (w : widgets) : float * float :=
  if decide ("score" ∈ columns df) then slider w else (0%float, 1%float).

(** The minimum and the maximum of the scores, and the bounds the slider is
    drawn with: the maximum is moved up when the two are equal. *)
Definition score_min (df : DataFrame) : float := series_min (column "score" df).
Definition score_max (df : DataFrame) : float := series_max (column "score" df).

#[warnings="-inexact-float"]
Definition slider_bounds (df : DataFrame) : float * float :=
  let score_min := score_min df in
  let score_max := score_max df in
  let score_max :=
    if PrimFloat.eqb score_min score_max then PrimFloat.add score_min 0.01%float
    else score_max in
  (score_min, score_max).

(** The filters of [main], applied to the working table. *)
Definition apply_filters (w : widgets) (reviewed : gset Z) (df : DataFrame)
  : result DataFrame :=
  let score_range := score_range df w in
  let filtered_df := df in
  filtered_df ←
    match selected_languages w with
    | [] => Ok filtered_df
    | vals => isin_filter "language" vals filtered_df
    end;
  filtered_df ←
    match selected_qualifications w with
    | [] => Ok filtered_df
    | vals => isin_filter "qualification_name" vals filtered_df
    end;
  filtered_df ←
    (if decide ("score" ∈ columns filtered_df) then
       score_between (fst score_range) (snd score_range) filtered_df
     else Ok filtered_df);
  let filtered_df :=
    if decide (review_status w = "All") then filtered_df
    else if decide (review_status w = "Reviewed") then
      select (index_isin reviewed) filtered_df
    else select (λ r, negb (index_isin reviewed r)) filtered_df in
  match search_term w with
  | EmptyString => Ok filtered_df
  | term => search term filtered_df
  end.

(** The three export buttons: for each, the frame that [to_csv(index=False)]
    writes out, or [None] when the download is not offered (the buttons are
    not drawn for an empty view, and a button is disabled when its list of
    indices is empty). *)
Record exports := Exports {
  all_filtered : option DataFrame;
  reviewed_only : option DataFrame;
  non_reviewed_only : option DataFrame
}.

Definition export_buttons (filtered_df : DataFrame) (reviewed : gset Z) : exports :=
  if 0 <? len filtered_df then
    let export_df :=
      assign "reviewed_status" (λ r, CBool (index_isin reviewed r)) filtered_df in
    let reviewed_indices :=
      filter (λ idx, idx ∈ reviewed) (index filtered_df) in
    let non_reviewed_indices :=
      filter (λ idx, idx ∉ reviewed) (index filtered_df) in
    Exports
      (Some export_df)
      (match reviewed_indices with
       | [] => None
       | _ => Some (assign "reviewed_status" (λ _, CBool true)
                           (loc reviewed_indices filtered_df))
       end)
      (match non_reviewed_indices with
       | [] => None
       | _ => Some (assign "reviewed_status" (λ _, CBool false)
                           (loc non_reviewed_indices filtered_df))
       end)
  else Exports None None None.

(** The menu of the page-size selector. *)
Definition items_per_page_options : list Z := [10; 25; 50; 100].


(** The rows of page [page]. *)
Definition page_data (filtered_df : DataFrame) (items_per_page page : Z)
  : DataFrame :=
  let start_idx := (page - 1) * items_per_page in
  let end_idx := Z.min (start_idx + items_per_page) (len filtered_df) in
  iloc start_idx end_idx filtered_df.



(** The colour of a score in the table of the app ([apply_score_styling] of
    [app.py]). *)
#[warnings="-inexact-float"]
Definition apply_score_styling (score : float) : string :=
  if PrimFloat.is_nan score then "#f8f9fa"
  else if PrimFloat.ltb 0.8%float score then "#d4edda"
  else "#f8d7da".

(** The options of the two multi-selects. *)
Definition language_options (df : DataFrame) : list cell :=
  if decide ("language" ∈ columns df) then unique (column "language" df) else [].

Definition qualification_options (df : DataFrame) : list cell :=
  if decide ("qualification_name" ∈ columns df) then
    unique (column "qualification_name" df)
  else [].

(** The options of the review-status selector. *)
Definition review_status_options : list string :=
  ["All"; "Reviewed"; "Not Reviewed"].

(** A Python [str] is held as the bytes of its UTF-8 form, while [len] and
    slices count characters (code points).  A character is one byte that
    is no continuation byte ([10xxxxxx]), followed by its continuation
    bytes. *)
Definition continuation (c : ascii) : bool :=
  (128 <=? nat_of_ascii c)%nat && (nat_of_ascii c <? 192)%nat.

(** [len(text)]: the number of characters. *)
Fixpoint str_len (text : string) : nat :=
  match text with
  | EmptyString => O
  | String c text' =>
      if continuation c then str_len text' else S (str_len text')
  end.

(** [text[:n]]: the first [n] characters. *)
Fixpoint str_prefix (n : nat) (text : string) : string :=
  match text with
  | EmptyString => EmptyString
  | String c text' =>
      if continuation c then String c (str_prefix n text')
      else match n with
           | O => EmptyString
           | S n' => String c (str_prefix n' text')
           end
  end.

(** The text of a column in the table,
    [str(x)[:n] + '...' if len(str(x)) > n else str(x)]. *)
Definition shortened (n : nat) (text : string) : string :=
  if decide (n < str_len text)%nat then
    (str_prefix n text ++ "...")%string
  else text.

(** The 'Row #' of the row at position [idx] of the page. *)
Definition row_number (start_idx : Z) (idx : nat) : Z :=
  start_idx + Z.of_nat idx + 1.

(** The labels of the checked rows: [edited_select] is the 'Select' column of
    the edited table, row by row. *)
Fixpoint selected_from (i : nat) (page_rows : list row) (edited_select : list bool)
  : list Z :=
  match page_rows with
  | [] => []
  | r :: page_rows' =>
      (if decide (i < length edited_select)%nat then
         match edited_select !! i with
         | Some true => [label r]
         | _ => []
         end
       else [])
      ++ selected_from (S i) page_rows' edited_select
  end.

Definition selected_indices (page_data : DataFrame) (edited_select : list bool)
  : list Z :=
  selected_from 0 (rows page_data) edited_select.

End app.
End App.

(** * Vocabulary of the properties *)

Section vocabulary.
Context `{PyRuntime}.
Import DataManager.

(** A filter that constrains nothing: every dimension is either not passed
    or passed with its empty value. *)
Definition no_constraint (f : filters) : bool :=
  match languages f with Some (_ :: _) => false | _ => true end
  && match qualifications f with Some (_ :: _) => false | _ => true end
  && match score_min f, score_max f with Some _, Some _ => false | _, _ => true end
  && match review_status f with
     | Some s => negb (bool_decide (s = "reviewed" ∨ s = "not_reviewed"))
     | None => true
     end
  && match search_term f with Some (String _ _) => false | _ => true end.

(** The defaults of the five filter dimensions. *)
Definition default_filters : filters :=
  Filters (Some []) (Some []) None None (Some "All") (Some "").

(** A filter that only bounds the score. *)
Definition score_filters (lo hi : float) : filters :=
  Filters None None (Some lo) (Some hi) None None.

(** The score of a row as a number, and whether it is missing. *)
Definition score (r : row) : float := num (row_cell r "score").
Definition missing_score (r : row) : bool := PrimFloat.is_nan (score r).

(** [lo <= s <= hi] on float64. *)
Definition within (lo hi s : float) : bool :=
  PrimFloat.leb lo s && PrimFloat.leb s hi.

(** The widgets of the app left as they are drawn, with the score slider
    at [(lo, hi)]. *)
Definition slider_only (lo hi : float) : App.widgets :=
  App.Widgets [] (lo, hi) [] "All" "".

(** A filter that only searches. *)
Definition search_filters (term : string) : filters :=
  Filters None None None None None (Some term).

(** ASCII lower case, and the literal, case-insensitive substring test. *)
Definition lower (a : ascii) : ascii :=
  let n := nat_of_ascii a in
  if (Nat.leb 65 n && Nat.leb n 90)%bool then ascii_of_nat (n + 32) else a.

Fixpoint starts_with_ci (term s : string) : bool :=
  match term, s with
  | EmptyString, _ => true
  | String _ _, EmptyString => false
  | String a term', String b s' =>
      Ascii.eqb (lower a) (lower b) && starts_with_ci term' s'
  end.

Fixpoint contains_ci (term s : string) : bool :=
  starts_with_ci term s
  || match s with
     | EmptyString => false
     | String _ s' => contains_ci term s'
     end.

(** The search as the claim words it: a row is kept when the text of one of
    its columns contains the term literally, whatever the case. *)
Definition row_contains (term : string) (df : DataFrame) (r : row) : bool :=
  existsb (λ c, contains_ci term (astype_str (row_cell r c))) (columns df).

(** The row identifiers of an export; none when the download is not
    offered. *)
Definition export_ids (e : option DataFrame) : gset Z :=
  match e with
  | Some df => list_to_set (index df)
  | None => ∅
  end.

(** [ceil(total / size)] *)
Definition ceil_div (total size : Z) : Z := (total + size - 1) `div` size.

(** The elements of a list at the positions [a], [a+1], ..., [b-1]. *)
Definition positions {A} (a b : Z) (l : list A) : list A :=
  take (Z.to_nat (b - a)) (drop (Z.to_nat a) l).


(** The keyword arguments [f] with [review_status] passed as [status], or
    not passed. *)
Definition with_status (status : option string) (f : filters) : filters :=
  Filters (languages f) (qualifications f) (score_min f) (score_max f)
          status (search_term f).

(** The keyword arguments that ask [filter_data] for what the widgets of
    the app ask of its own filter. *)
Definition kwargs_of (w : App.widgets) : filters :=
  Filters (Some (App.selected_languages w))
          (Some (App.selected_qualifications w))
          (Some (fst (App.slider w))) (Some (snd (App.slider w)))
          (Some (if decide (App.review_status w = "All") then "All"
                 else if decide (App.review_status w = "Reviewed") then "reviewed"
                 else "not_reviewed"))
          (Some (App.search_term w)).

(** The conjunction of the active row predicates of [filter_data], the
    search apart. *)
Definition passes (f : filters) (reviewed : gset Z) (r : row) : bool :=
  match languages f with
  | Some (v :: vs) => isin (v :: vs) (row_cell r "language")
  | _ => true
  end
  && match qualifications f with
     | Some (v :: vs) => isin (v :: vs) (row_cell r "qualification_name")
     | _ => true
     end
  && match score_min f, score_max f with
     | Some lo, Some hi => within lo hi (score r)
     | _, _ => true
     end
  && match review_status f with
     | Some status =>
         if decide (status = "reviewed") then index_isin reviewed r
         else if decide (status = "not_reviewed") then negb (index_isin reviewed r)
         else true
     | None => true
     end.

(** The column an active filter of [filter_data] asks for and the table
    does not have, the language column first. *)
Definition missing_key (f : filters) (d : DataFrame) : option string :=
  match languages f with
  | Some (_ :: _) =>
      if decide ("language" ∈ columns d) then
        match qualifications f with
        | Some (_ :: _) =>
            if decide ("qualification_name" ∈ columns d) then None
            else Some "qualification_name"
        | _ => None
        end
      else Some "language"
  | _ =>
      match qualifications f with
      | Some (_ :: _) =>
          if decide ("qualification_name" ∈ columns d) then None
          else Some "qualification_name"
      | _ => None
      end
  end.

(** A table cut from another: the same columns, and rows of the other in
    their order. *)
Definition cut_from (d out : DataFrame) : Prop :=
  columns out = columns d ∧ sublist (rows out) (rows d).

(** A table whose [score] column is there and holds no string. *)
Definition numeric_score (d : DataFrame) : Prop :=
  "score" ∈ columns d ∧ Forall (λ r, is_str (row_cell r "score") = false) (rows d).

(** The colours of the highest and of the lowest tier of scores. *)
Definition green : string := "#d4edda".
Definition red : string := "#f8d7da".

(** The message of [validate_csv_structure] on scores that are not
    numbers. *)
Definition score_warning : string :=
  "Some score values could not be converted to numbers.".

End vocabulary.

(** * Sample inputs *)

(** The number of parentheses left open at the end of a pattern; [None]
    when one is closed that was not opened. *)
Fixpoint open_parens (depth : nat) (pat : string) : option nat :=
  match pat with
  | EmptyString => Some depth
  | String "(" pat' => open_parens (S depth) pat'
  | String ")" pat' =>
      match depth with
      | O => None
      | S depth' => open_parens depth' pat'
      end
  | String _ pat' => open_parens depth pat'
  end.

Definition sample_table : DataFrame :=
  Frame ["language"; "questions"]
        [Row 0 {[ "language" := CStr "EN"; "questions" := CStr "f(x) = ?" ]};
         Row 1 {[ "language" := CStr "DE"; "questions" := CStr "Alter" ]};
         Row 2 {[ "language" := CStr "EN"; "questions" := CStr "Age" ]}].

(** A runtime for the examples.  It stands for Python on the values the
    examples use: it writes NaN as [nan] and one half as [0.5], reads
    [0.5] back, rejects a pattern whose parentheses do not balance, as
    Python does, and searches the others literally, whatever the case, as
    Python does for a pattern free of metacharacters; the reader fails on an
    empty upload, as [pd.read_csv] does. *)
Definition sample_runtime : PyRuntime := {|
  float_repr f := if PrimFloat.is_nan f then "nan" else "0.5";
  parse_float s := if decide (s = "0.5") then 0.5%float else nan;
  re_compile pat :=
    match open_parens 0 pat with
    | Some O => Some (contains_ci pat)
    | _ => None
    end;
  read_csv file :=
    match file with
    | [] => Raise (CsvError "No columns to parse from file")
    | _ => Ok sample_table
    end
|}.


(** A second table, with scores: a number, a text that is no number and a
    missing value. *)
Definition scored_table : DataFrame :=
  Frame ["language"; "score"]
        [Row 0 {[ "language" := CStr "EN"; "score" := CNum 0.5%float ]};
         Row 1 {[ "language" := CStr "DE"; "score" := CStr "n/a" ]};
         Row 2 {[ "language" := CStr "EN"; "score" := CNum nan ]}].

(** The float of a small integer, and an arithmetic for the examples: the
    quotient of the floats of two integers, and the mean of the present
    values added from left to right. *)
Definition float_of_Z (z : Z) : float :=
  if z <? 0 then PrimFloat.opp (PrimFloat.of_uint63 (Uint63.of_Z (- z)))
  else PrimFloat.of_uint63 (Uint63.of_Z z).

Definition sample_numeric : PyNumeric := {|
  int_truediv a b := PrimFloat.div (float_of_Z a) (float_of_Z b);
  series_mean l :=
    let xs := filter (λ x, PrimFloat.is_nan x = false) l in
    PrimFloat.div (foldl PrimFloat.add 0%float xs)
                  (float_of_Z (Z.of_nat (length xs)))
|}.

(** * Properties *)

(** ** The review set *)

Section review_set.
Import DataManager.

Lemma is_reviewed_true id self : is_reviewed id self = true ↔ id ∈ reviewed_items self.
Proof. unfold is_reviewed. apply bool_decide_eq_true. Qed.

Lemma is_reviewed_false id self : is_reviewed id self = false ↔ id ∉ reviewed_items self.
Proof. unfold is_reviewed. apply bool_decide_eq_false. Qed.

(** C1, as the code has it: [mark_reviewed id] followed by
    [unmark_reviewed id] leaves the review set equal to the one before the
    mark with [id] taken out.  So [id] is not a member afterwards, the
    membership of every other identifier is unchanged, and the membership of
    [id] is back to its state before the mark exactly when [id] was not a
    member then. *)
Theorem mark_then_unmark (id : Z) (self : t) (ss : session_state) :
  let after := (unmark_reviewed id (mark_reviewed id self ss).1
                                   (mark_reviewed id self ss).2).1 in
  reviewed_items after = reviewed_items self ∖ {[id]}
  ∧ is_reviewed id after = false
  ∧ (∀ other, other ≠ id → is_reviewed other after = is_reviewed other self)
  ∧ (is_reviewed id after = is_reviewed id self ↔ is_reviewed id self = false)
  ∧ data after = data self.
Proof.
  cbn.
  assert (Hset : ({[id]} ∪ reviewed_items self) ∖ {[id]}
                 = reviewed_items self ∖ {[id]}).
  { apply set_eq. intros x.
    rewrite !elem_of_difference, elem_of_union, elem_of_singleton. tauto. }
  assert (Hout : is_reviewed id
            (Manager (data self) (({[id]} ∪ reviewed_items self) ∖ {[id]}))
          = false).
  { apply is_reviewed_false. cbn. rewrite Hset, elem_of_difference.
    rewrite elem_of_singleton. tauto. }
  split_and!.
  - exact Hset.
  - exact Hout.
  - intros other Hne. unfold is_reviewed. cbn. rewrite Hset.
    apply bool_decide_ext. rewrite elem_of_difference, elem_of_singleton. tauto.
  - rewrite Hout. split; congruence.
  - reflexivity.
Qed.

(** C1 as stated fails when [id] was already reviewed: row 3 is in the
    review set, and marking it and unmarking it takes it out. *)
Lemma mark_then_unmark_drops_member :
  let ss := Session (Some [3]) in
  let self := __init__ ss in
  is_reviewed 3 (unmark_reviewed 3 (mark_reviewed 3 self ss).1
                                   (mark_reviewed 3 self ss).2).1
  ≠ is_reviewed 3 self.
Proof. vm_compute. discriminate. Qed.

End review_set.

(** ** Loading and the default filter *)

Section loading.
Context `{PyRuntime}.
Import DataManager.

Lemma load_data_loaded df self : ∃ d, data (load_data df self) = Some d.
Proof. unfold load_data. eauto. Qed.

Lemma filter_data_no_constraint f self :
  no_constraint f = true → filter_data f self = Ok (get_data self).
Proof.
  unfold no_constraint, filter_data, get_data.
  rewrite !andb_true_iff. intros [[[[Hl Hq] Hs] Hr] Ht].
  destruct (data self) as [d|]; [|done].
  destruct (languages f) as [[|]|]; try done.
  all: destruct (qualifications f) as [[|]|]; try done.
  all: destruct (score_min f), (score_max f); try done.
  all: cbn.
  all: destruct (review_status f) as [s|];
    [apply negb_true_iff, bool_decide_eq_false in Hr;
     repeat case_decide; try (exfalso; apply Hr; auto; fail)|].
  all: destruct (search_term f) as [[|]|]; done.
Qed.

(** C7: with an empty language set, an empty qualification set, no score
    bounds, review status 'All' and an empty search term, [filter_data]
    returns the loaded table itself: the same columns and the same rows, in
    the same order (and the empty frame when no table is loaded). *)
Theorem filter_data_default (self : t) (df : DataFrame) :
  filter_data default_filters self = Ok (get_data self)
  ∧ ∃ d, data (load_data df self) = Some d
         ∧ filter_data default_filters (load_data df self) = Ok d.
Proof.
  split.
  - by apply filter_data_no_constraint.
  - destruct (load_data_loaded df self) as [d Hd]. exists d. split; [done|].
    rewrite filter_data_no_constraint by done.
    unfold get_data. by rewrite Hd.
Qed.

Lemma assign_index c v df : index (assign c v df) = index df.
Proof. unfold index, assign. cbn. rewrite map_map. done. Qed.

Lemma len_not_positive df : (0 <? len df) = false → rows df = [].
Proof.
  intros Hlen. apply Z.ltb_ge in Hlen. unfold len in Hlen.
  destruct (rows df); [done|cbn in Hlen; lia].
Qed.

Lemma load_data_index df self d :
  data (load_data df self) = Some d → index d = index df.
Proof.
  unfold load_data. cbn. intros [= <-].
  case_decide; apply assign_index.
Qed.

(** C9: loading a table leaves the review set as it was, in the manager
    ([load_data]) and in the session of the app (an upload, whether it
    parses or not).  The labels that were marked stay marked and are read
    against the index of the new table: its 'reviewed' view is made of the
    rows whose label was in the review set before the load. *)
Theorem load_keeps_review_set
    (df : DataFrame) (self : t) (file : option (list Byte.byte))
    (ss : App.session_state) :
  reviewed_items (load_data df self) = reviewed_items self
  ∧ (∀ id, is_reviewed id (load_data df self) = is_reviewed id self)
  ∧ App.reviewed_items (App.upload file ss).1.1 = App.reviewed_items ss
  ∧ ∃ d, data (load_data df self) = Some d
         ∧ index d = index df
         ∧ filter_data (Filters None None None None (Some "reviewed") None)
                       (load_data df self)
           = Ok (select (λ r, bool_decide (label r ∈ reviewed_items self)) d).
Proof.
  split_and!.
  - done.
  - done.
  - unfold App.upload. destruct file as [file|]; [|done].
    by destruct (read_csv file).
  - destruct (load_data_loaded df self) as [d Hd]. exists d.
    split_and!; [done|by eapply load_data_index|].
    unfold filter_data. rewrite Hd. done.
Qed.

(** C8: when the uploaded bytes do not parse, the upload handler reports
    the error and returns; the session state, that is the table loaded
    before and the review set, is the one it was given. *)
Theorem upload_parse_failure
    (file : list Byte.byte) (ss : App.session_state) (e : exn) :
  read_csv file = Raise e →
  App.upload (Some file) ss = (ss, [App.st_error_loading e], App.Return).
Proof. intros Hparse. unfold App.upload. by rewrite Hparse. Qed.

End loading.

(** ** Export with the review status *)

Section export.
Import DataManager.

Lemma assign_columns c v df :
  columns (assign c v df)
  = if decide (c ∈ columns df) then columns df else columns df ++ [c].
Proof. done. Qed.

Lemma assign_rows c v df :
  Forall2 (λ r r', label r' = label r
                   ∧ cells r' !! c = Some (v r)
                   ∧ ∀ c', c' ≠ c → cells r' !! c' = cells r !! c')
          (rows df) (rows (assign c v df)).
Proof.
  unfold assign. cbn. induction (rows df) as [|r rs IH]; cbn; constructor.
  - split_and!; [done|apply lookup_insert_eq|].
    intros c' Hne. by apply lookup_insert_ne.
  - exact IH.
Qed.

(** C10: [export_data_with_review_status] returns the subset it exports as
    it is when that subset is empty (so also the empty frame when nothing is
    passed and no table is loaded): no [reviewed_status] column is added.
    Otherwise the result has the rows of the subset in order, each with its
    label and its cells and with [reviewed_status] true exactly when the
    label is in the review set; the column comes last when the subset did
    not have it.  The function is total: no input makes it raise. *)
Theorem export_review_status_column (filtered_df : option DataFrame) (self : t) :
  let subset := match filtered_df with Some df => df | None => get_data self end in
  let out := export_data_with_review_status filtered_df self in
  (if empty subset then out = subset
   else columns out
        = (if decide ("reviewed_status" ∈ columns subset) then columns subset
           else columns subset ++ ["reviewed_status"])
        ∧ Forall2 (λ r r', label r' = label r
                     ∧ cells r' !! "reviewed_status"
                       = Some (CBool (bool_decide (label r ∈ reviewed_items self)))
                     ∧ ∀ c, c ≠ "reviewed_status" → cells r' !! c = cells r !! c)
                  (rows subset) (rows out))
  ∧ export_data_with_review_status None (Manager None (reviewed_items self))
    = empty_frame.
Proof.
  cbn zeta. split; [|done].
  unfold export_data_with_review_status, get_data.
  set (subset := match filtered_df with
                 | Some df => df
                 | None => match data self with Some d => d | None => empty_frame end
                 end).
  destruct (empty subset); cbn [negb]; [done|].
  split; [apply assign_columns|].
  apply (assign_rows "reviewed_status"
           (λ r, CBool (index_isin (reviewed_items self) r))).
Qed.

End export.

(** ** The order of float64 values *)

(** [PrimFloat.leb] is IEEE 754 [<=]: false as soon as one side is NaN, and
    a total preorder on the other values. *)
Section float_order.

Lemma SFcompare_opp a b :
  SFcompare b a = CompOpp <$> SFcompare a b.
Proof.
  destruct a as [[]|[]| |[] ma ea], b as [[]|[]| |[] mb eb]; cbn; try done.
  all: rewrite (Z.compare_antisym ea eb); destruct (ea ?= eb); cbn; try done.
  all: change (Pos.compare_cont Eq) with Pos.compare.
  all: rewrite (Pos.compare_antisym ma mb); by destruct (ma ?= mb)%positive.
Qed.

Lemma SFleb_trans a b c :
  SFleb a b = true → SFleb b c = true → SFleb a c = true.
Proof.
  unfold SFleb.
  destruct a as [[]|[]| |[] ma ea], b as [[]|[]| |[] mb eb],
           c as [[]|[]| |[] mc ec]; cbn; try done.
  all: change (Pos.compare_cont Eq) with Pos.compare.
  all: destruct (Z.compare_spec ea eb), (Z.compare_spec eb ec),
         (Z.compare_spec ea ec); cbn; try done; try lia.
  all: destruct (Pos.compare_spec ma mb), (Pos.compare_spec mb mc),
         (Pos.compare_spec ma mc); cbn; try done; try lia.
Qed.

Lemma SFcompare_refl a : a ≠ S754_nan → SFcompare a a = Some Eq.
Proof.
  destruct a as [[]|[]| |[] m e]; cbn; try done.
  all: intros _; rewrite Z.compare_refl.
  all: change (Pos.compare_cont Eq) with Pos.compare.
  all: by rewrite Pos.compare_refl.
Qed.

Lemma SFcompare_nan_l a b : SFcompare a b ≠ None → a ≠ S754_nan.
Proof. by destruct a. Qed.

Lemma SFcompare_nan_r a b : SFcompare a b ≠ None → b ≠ S754_nan.
Proof. by destruct a, b. Qed.

Lemma SFcompare_present a b :
  a ≠ S754_nan → b ≠ S754_nan → ∃ c, SFcompare a b = Some c.
Proof. destruct a, b; cbn; try done; eauto. Qed.

Lemma is_nan_false x : PrimFloat.is_nan x = false ↔ Prim2SF x ≠ S754_nan.
Proof.
  unfold PrimFloat.is_nan. rewrite FloatAxioms.eqb_spec. unfold SFeqb. split.
  - intros Heq Hnan. rewrite Hnan in Heq. done.
  - intros Hx. by rewrite SFcompare_refl.
Qed.

Lemma leb_refl x : PrimFloat.is_nan x = false → PrimFloat.leb x x = true.
Proof.
  rewrite is_nan_false, FloatAxioms.leb_spec. intros Hx. unfold SFleb.
  by rewrite SFcompare_refl.
Qed.

Lemma leb_trans x y z :
  PrimFloat.leb x y = true → PrimFloat.leb y z = true → PrimFloat.leb x z = true.
Proof. rewrite !FloatAxioms.leb_spec. apply SFleb_trans. Qed.

Lemma leb_present x y :
  PrimFloat.leb x y = true → PrimFloat.is_nan x = false ∧ PrimFloat.is_nan y = false.
Proof.
  rewrite FloatAxioms.leb_spec, !is_nan_false. unfold SFleb. intros Hle.
  split; [eapply SFcompare_nan_l|eapply SFcompare_nan_r]; intros Hc;
    by rewrite Hc in Hle.
Qed.

Lemma ltb_leb x y : PrimFloat.ltb x y = true → PrimFloat.leb x y = true.
Proof.
  rewrite FloatAxioms.ltb_spec, FloatAxioms.leb_spec. unfold SFltb, SFleb.
  by destruct (SFcompare _ _) as [[]|].
Qed.

Lemma leb_total x y :
  PrimFloat.is_nan x = false → PrimFloat.is_nan y = false →
  PrimFloat.ltb y x = false → PrimFloat.leb x y = true.
Proof.
  rewrite !is_nan_false, FloatAxioms.ltb_spec, FloatAxioms.leb_spec. unfold SFltb, SFleb.
  intros Hx Hy. rewrite (SFcompare_opp (Prim2SF y) (Prim2SF x)).
  destruct (SFcompare_present _ _ Hy Hx) as [c ->]. by destruct c.
Qed.

End float_order.


(** ** The score column and the score range *)

Section score.
Context `{PyRuntime}.

Lemma fmin_lower a b :
  PrimFloat.is_nan a = false → PrimFloat.is_nan b = false →
  PrimFloat.is_nan (fmin a b) = false
  ∧ PrimFloat.leb (fmin a b) a = true ∧ PrimFloat.leb (fmin a b) b = true.
Proof.
  intros Ha Hb. unfold fmin. destruct (PrimFloat.ltb b a) eqn:Hlt.
  - split_and!; [done|by apply ltb_leb|by apply leb_refl].
  - split_and!; [done|by apply leb_refl|by apply leb_total].
Qed.

Lemma fmax_upper a b :
  PrimFloat.is_nan a = false → PrimFloat.is_nan b = false →
  PrimFloat.is_nan (fmax a b) = false
  ∧ PrimFloat.leb a (fmax a b) = true ∧ PrimFloat.leb b (fmax a b) = true.
Proof.
  intros Ha Hb. unfold fmax. destruct (PrimFloat.ltb a b) eqn:Hlt.
  - split_and!; [done|by apply ltb_leb|by apply leb_refl].
  - split_and!; [done|by apply leb_refl|by apply leb_total].
Qed.

Lemma foldl_fmin_lower xs : ∀ x,
  PrimFloat.is_nan x = false →
  Forall (λ y, PrimFloat.is_nan y = false) xs →
  PrimFloat.is_nan (foldl fmin x xs) = false
  ∧ Forall (λ y, PrimFloat.leb (foldl fmin x xs) y = true) (x :: xs).
Proof.
  induction xs as [|b xs IH]; intros x Hx Hxs; cbn.
  - split; [done|]. constructor; [by apply leb_refl|constructor].
  - inversion_clear Hxs as [|? ? Hb Hxs'].
    destruct (fmin_lower x b Hx Hb) as (Hm & Hmx & Hmb).
    destruct (IH (fmin x b) Hm Hxs') as (Hn & Hall).
    split; [done|]. inversion_clear Hall as [|? ? Hhd Htl].
    repeat constructor; [by eapply leb_trans|by eapply leb_trans|done].
Qed.

Lemma foldl_fmax_upper xs : ∀ x,
  PrimFloat.is_nan x = false →
  Forall (λ y, PrimFloat.is_nan y = false) xs →
  PrimFloat.is_nan (foldl fmax x xs) = false
  ∧ Forall (λ y, PrimFloat.leb y (foldl fmax x xs) = true) (x :: xs).
Proof.
  induction xs as [|b xs IH]; intros x Hx Hxs; cbn.
  - split; [done|]. constructor; [by apply leb_refl|constructor].
  - inversion_clear Hxs as [|? ? Hb Hxs'].
    destruct (fmax_upper x b Hx Hb) as (Hm & Hmx & Hmb).
    destruct (IH (fmax x b) Hm Hxs') as (Hn & Hall).
    split; [done|]. inversion_clear Hall as [|? ? Hhd Htl].
    repeat constructor; [by eapply leb_trans|by eapply leb_trans|done].
Qed.

Lemma present_spec col s :
  s ∈ present col ↔ PrimFloat.is_nan s = false ∧ ∃ c, c ∈ col ∧ num c = s.
Proof.
  unfold present. rewrite list_elem_of_filter, list_elem_of_fmap.
  naive_solver.
Qed.

Lemma present_all col : Forall (λ y, PrimFloat.is_nan y = false) (present col).
Proof. apply Forall_forall. intros s Hs. by apply present_spec in Hs as [? _]. Qed.

(** The minimum and the maximum of a column bound every value of it that is
    not missing. *)
Lemma series_min_max_bound col c :
  c ∈ col → PrimFloat.is_nan (num c) = false →
  PrimFloat.leb (series_min col) (num c) = true
  ∧ PrimFloat.leb (num c) (series_max col) = true.
Proof.
  intros Hc Hn.
  assert (Hin : num c ∈ present col) by (apply present_spec; eauto).
  pose proof (present_all col) as Hall.
  unfold series_min, series_max.
  destruct (present col) as [|x xs]; [by apply elem_of_nil in Hin|].
  inversion_clear Hall as [|? ? Hx Hxs].
  destruct (foldl_fmin_lower xs x Hx Hxs) as [_ Hlo].
  destruct (foldl_fmax_upper xs x Hx Hxs) as [_ Hhi].
  rewrite Forall_forall in Hlo, Hhi. auto.
Qed.

Lemma select_ext p q df :
  Forall (λ r, p r = q r) (rows df) → select p df = select q df.
Proof.
  unfold select. intros Hpq. f_equal.
  induction Hpq as [|r rs Hr _ IH]; [done|].
  rewrite !filter_cons, IH, Hr. done.
Qed.

Lemma select_all p df :
  Forall (λ r, p r = true) (rows df) → select p df = df.
Proof.
  unfold select. intros Hp. destruct df as [cs rs]. cbn in *. f_equal.
  induction Hp as [|r rs Hr _ IH]; [done|].
  rewrite filter_cons, IH. by rewrite decide_True.
Qed.

Lemma select_none p df :
  Forall (λ r, p r = false) (rows df) → select p df = Frame (columns df) [].
Proof.
  unfold select. intros Hp. f_equal.
  induction Hp as [|r rs Hr _ IH]; [done|].
  rewrite filter_cons, IH. rewrite decide_False; [done|]. by rewrite Hr.
Qed.

Lemma assign_row_cell c v df :
  Forall (λ r', ∃ r, r ∈ rows df ∧ row_cell r' c = v r) (rows (assign c v df)).
Proof.
  apply Forall_forall. intros r' Hr'. unfold assign in Hr'. cbn in Hr'.
  apply list_elem_of_fmap in Hr' as (r & -> & Hr). exists r. split; [done|].
  unfold row_cell. cbn. by rewrite lookup_insert_eq.
Qed.

Lemma assign_has_column c v df : c ∈ columns (assign c v df).
Proof. rewrite assign_columns. case_decide; [done|]. set_solver. Qed.

Lemma to_numeric_not_str col c : c ∈ col → is_str (to_numeric col c) = false.
Proof.
  intros Hc. unfold to_numeric. destruct (forallb is_bool col) eqn:Hb.
  - rewrite forallb_forall in Hb. apply list_elem_of_In, Hb in Hc.
    by destruct c.
  - by destruct c.
Qed.

(** After [pd.to_numeric] the [score] column holds no string. *)
Lemma numeric_score_rows df :
  Forall (λ r, is_str (row_cell r "score") = false)
    (rows (assign "score"
             (λ r, to_numeric (column "score" df) (row_cell r "score")) df)).
Proof.
  eapply Forall_impl; [apply assign_row_cell|]. cbn.
  intros r' (r & Hr & ->). apply to_numeric_not_str.
  unfold column. apply list_elem_of_fmap. eauto.
Qed.

Lemma constant_score_rows df :
  Forall (λ r, row_cell r "score" = CNum 0.5%float)
    (rows (assign "score" (λ _, CNum 0.5%float) df)).
Proof.
  eapply Forall_impl; [apply assign_row_cell|]. cbn. by intros r' (r & _ & ->).
Qed.

Lemma load_data_score df self d :
  DataManager.data (DataManager.load_data df self) = Some d →
  "score" ∈ columns d ∧ Forall (λ r, is_str (row_cell r "score") = false) (rows d).
Proof.
  unfold DataManager.load_data. cbn. intros [= <-]. case_decide.
  - split; [apply assign_has_column|apply numeric_score_rows].
  - split; [apply assign_has_column|].
    eapply Forall_impl; [apply constant_score_rows|]. cbn. by intros r ->.
Qed.

Lemma score_between_numeric lo hi df :
  "score" ∈ columns df →
  Forall (λ r, is_str (row_cell r "score") = false) (rows df) →
  score_between lo hi df = Ok (select (score_in_range lo hi) df).
Proof.
  intros Hc Hrows. unfold score_between. rewrite decide_True by done.
  assert (existsb is_str (column "score" df) = false) as ->; [|done].
  apply not_true_is_false. intros (c & Hin & Hstr)%existsb_exists.
  apply list_elem_of_In, list_elem_of_fmap in Hin as (r & -> & Hr).
  rewrite Forall_forall in Hrows. by rewrite Hrows in Hstr.
Qed.

Lemma score_in_range_within lo hi df :
  Forall (λ r, is_str (row_cell r "score") = false) (rows df) →
  select (score_in_range lo hi) df = select (λ r, within lo hi (score r)) df.
Proof.
  intros Hrows. apply select_ext. eapply Forall_impl; [exact Hrows|]. cbn.
  intros r Hr. unfold score_in_range, within, score. by rewrite Hr.
Qed.

(** Between the minimum and the maximum of the column lie exactly the
    scores that are not missing. *)
Lemma within_min_max df :
  Forall (λ r, within (series_min (column "score" df))
                      (series_max (column "score" df)) (score r)
               = negb (missing_score r)) (rows df).
Proof.
  apply Forall_forall. intros r Hr. unfold within, missing_score, score.
  destruct (PrimFloat.is_nan (num (row_cell r "score"))) eqn:Hn; cbn.
  - apply andb_false_iff. left. apply not_true_is_false.
    intros [_ Hs]%leb_present. congruence.
  - assert (Hin : row_cell r "score" ∈ column "score" df).
    { unfold column. apply list_elem_of_fmap. eauto. }
    destruct (series_min_max_bound _ _ Hin Hn) as [-> ->]. done.
Qed.

(** C6: on a loaded table, [filter_data] with the bounds [lo] and [hi] keeps
    exactly the rows whose score [s] has [lo <= s] and [s <= hi], both ends
    included, in their order; with [lo] the minimum and [hi] the maximum of
    the score column it keeps every row whose score is present and drops
    every row whose score is missing.  The score filter of the app does the
    same on its working table when that has a [score] column. *)
Theorem score_filter_inclusive
    (df : DataFrame) (self : DataManager.t) (lo hi : float)
    (reviewed : gset Z) :
  (∃ d, DataManager.data (DataManager.load_data df self) = Some d
    ∧ DataManager.filter_data (score_filters lo hi) (DataManager.load_data df self)
      = Ok (select (λ r, within lo hi (score r)) d)
    ∧ DataManager.filter_data
        (score_filters (series_min (column "score" d))
                       (series_max (column "score" d)))
        (DataManager.load_data df self)
      = Ok (select (λ r, negb (missing_score r)) d))
  ∧ (if decide ("score" ∈ columns df) then
       App.apply_filters (slider_only lo hi) reviewed (App.working_table df)
       = Ok (select (λ r, within lo hi (score r)) (App.working_table df))
       ∧ App.apply_filters
           (slider_only (App.score_min (App.working_table df))
                        (App.score_max (App.working_table df)))
           reviewed (App.working_table df)
         = Ok (select (λ r, negb (missing_score r)) (App.working_table df))
     else True).
Proof.
  split.
  - destruct (load_data_loaded df self) as [d Hd]. exists d.
    destruct (load_data_score _ _ _ Hd) as [Hc Hrows].
    assert (Hf : ∀ a b, DataManager.filter_data (score_filters a b)
                          (DataManager.load_data df self)
                        = Ok (select (λ r, within a b (score r)) d)).
    { intros a b. unfold DataManager.filter_data. rewrite Hd. cbn.
      rewrite score_between_numeric by done. cbn.
      by rewrite score_in_range_within. }
    split_and!; [done|apply Hf|].
    rewrite Hf. f_equal. apply select_ext, within_min_max.
  - case_decide as Hc; [|done].
    set (w := App.working_table df).
    assert (Hw : "score" ∈ columns w ∧
                 Forall (λ r, is_str (row_cell r "score") = false) (rows w)).
    { unfold w, App.working_table. rewrite decide_True by done.
      split; [apply assign_has_column|apply numeric_score_rows]. }
    destruct Hw as [Hcw Hrows].
    assert (Hf : ∀ a b, App.apply_filters (slider_only a b) reviewed w
                        = Ok (select (λ r, within a b (score r)) w)).
    { intros a b. unfold App.apply_filters, App.score_range. cbn.
      rewrite !decide_True by done. cbn.
      rewrite score_between_numeric by done. cbn.
      by rewrite score_in_range_within. }
    split; [apply Hf|].
    rewrite Hf. f_equal. apply select_ext, within_min_max.
Qed.

(** C3: a table without a [score] column loads: the loaded table has the
    rows of the upload, with their labels and cells, and one more column,
    [score], that reads 0.5 in every row.  A score-range filter on it keeps
    every row when [lo <= 0.5 <= hi] and none otherwise.  The app, which
    filters the upload itself, draws no slider for such a table, takes the
    range (0.0, 1.0) and keeps every row. *)
Theorem missing_score_fallback
    (df : DataFrame) (self : DataManager.t) (lo hi : float)
    (w : App.widgets) (reviewed : gset Z) :
  "score" ∉ columns df →
  (∃ d, DataManager.data (DataManager.load_data df self) = Some d
    ∧ columns d = columns df ++ ["score"]
    ∧ Forall2 (λ r r', label r' = label r
                 ∧ cells r' !! "score" = Some (CNum 0.5%float)
                 ∧ ∀ c, c ≠ "score" → cells r' !! c = cells r !! c)
              (rows df) (rows d)
    ∧ Forall (λ r, score r = 0.5%float) (rows d)
    ∧ DataManager.filter_data (score_filters lo hi) (DataManager.load_data df self)
      = Ok (if within lo hi 0.5%float then d else Frame (columns d) []))
  ∧ App.score_range (App.working_table df) w = (0%float, 1%float)
  ∧ within 0%float 1%float 0.5%float = true
  ∧ App.apply_filters (slider_only lo hi) reviewed (App.working_table df)
    = Ok df.
Proof.
  intros Hno. split_and!.
  - set (d := assign "score" (λ _, CNum 0.5%float) df).
    assert (Hd : DataManager.data (DataManager.load_data df self) = Some d).
    { unfold DataManager.load_data. cbn. by rewrite decide_False. }
    destruct (load_data_score _ _ _ Hd) as [Hc Hrows].
    assert (Hhalf : Forall (λ r, score r = 0.5%float) (rows d)).
    { eapply Forall_impl; [apply constant_score_rows|]. cbn.
      intros r Hr. unfold score. by rewrite Hr. }
    exists d. split_and!; [done| |apply assign_rows|done|].
    + unfold d. rewrite assign_columns. by rewrite decide_False.
    + unfold DataManager.filter_data. rewrite Hd. cbn.
      rewrite score_between_numeric by done. cbn.
      rewrite score_in_range_within by done. f_equal.
      destruct (within lo hi 0.5%float) eqn:Hin.
      * apply select_all. eapply Forall_impl; [exact Hhalf|]. cbn.
        by intros r ->.
      * apply select_none. eapply Forall_impl; [exact Hhalf|]. cbn.
        by intros r ->.
  - unfold App.working_table. rewrite decide_False by done.
    unfold App.score_range. by rewrite decide_False.
  - by vm_compute.
  - unfold App.working_table, App.apply_filters. rewrite !decide_False by done.
    cbn. by rewrite decide_False.
Qed.

End score.

(** ** The text search *)

Section text_search.
Context `{PyRuntime}.

Lemma loaded_not_empty df self d :
  DataManager.data (DataManager.load_data df self) = Some d →
  rows df ≠ [] → empty d = false.
Proof.
  intros Hd Hrows. destruct (load_data_score _ _ _ Hd) as [Hc _].
  assert (Hr : rows d ≠ []).
  { revert Hd. unfold DataManager.load_data. cbn. intros [= <-].
    case_decide; cbn; by destruct (rows df). }
  unfold empty. destruct (rows d); [done|].
  destruct (columns d); [by apply elem_of_nil in Hc|done].
Qed.

(** C2 at the search term "(": the first row of the sample table contains
    the term literally, in its [questions] column, so the claim has it
    kept.  The code hands the term to [str.contains] as a regular
    expression; Python rejects the pattern "(", and the filter of the
    manager and the filter of the app raise [re.error] instead of returning
    a table.  The manager does so on every loaded table that has a row. *)
Theorem search_parenthesis_raises :
  re_compile "(" = None →
  let self := DataManager.load_data sample_table
                (DataManager.__init__ (DataManager.Session None)) in
  (∃ d r, DataManager.data self = Some d
          ∧ rows d !! 0%nat = Some r
          ∧ row_contains "(" d r = true)
  ∧ DataManager.filter_data (search_filters "(") self = Raise (ReError "(")
  ∧ App.apply_filters (App.Widgets [] (0%float, 1%float) [] "All" "(") ∅
      (App.working_table sample_table)
    = Raise (ReError "(")
  ∧ ∀ df other, rows df ≠ [] →
      DataManager.filter_data (search_filters "(")
        (DataManager.load_data df other)
      = Raise (ReError "(").
Proof.
  intros Hre self.
  assert (Hall : ∀ df other, rows df ≠ [] →
            DataManager.filter_data (search_filters "(")
              (DataManager.load_data df other) = Raise (ReError "(")).
  { intros df other Hrows.
    destruct (load_data_loaded df other) as [d Hd].
    unfold DataManager.filter_data. rewrite Hd. cbn. unfold search.
    rewrite (loaded_not_empty _ _ _ Hd Hrows). by rewrite Hre. }
  split_and!.
  - do 2 eexists. split_and!; [reflexivity|reflexivity|by vm_compute].
  - by apply Hall.
  - unfold App.working_table. rewrite decide_False by compute_done.
    unfold App.apply_filters. cbn. rewrite decide_False by compute_done.
    cbn. unfold search. cbn. by rewrite Hre.
  - exact Hall.
Qed.

End text_search.

(** ** The three exports *)

Section exports.

Lemma loc_index (labels : list Z) (df : DataFrame) (id : Z) :
  id ∈ index (loc labels df) ↔ id ∈ labels ∧ id ∈ index df.
Proof.
  unfold index, loc. cbn. rewrite !list_elem_of_fmap. split.
  - intros (r & -> & Hr). apply list_elem_of_bind in Hr as (l & Hr & Hl).
    apply list_elem_of_filter in Hr as [<- Hr]. eauto.
  - intros [Hl (r & -> & Hr)]. exists r. split; [done|].
    apply list_elem_of_bind. exists (label r). split; [|done].
    by apply list_elem_of_filter.
Qed.

Lemma export_ids_loc c v (P : Z → Prop) `{∀ x, Decision (P x)} df id :
  id ∈ export_ids (match filter P (index df) with
                   | [] => None
                   | _ => Some (assign c v (loc (filter P (index df)) df))
                   end)
  ↔ id ∈ index df ∧ P id.
Proof.
  destruct (filter P (index df)) as [|l ls] eqn:Hl.
  - cbn. split; [set_solver|]. intros [Hid HP].
    assert (id ∈ filter P (index df)) as Hin by by apply list_elem_of_filter.
    rewrite Hl in Hin. by apply elem_of_nil in Hin.
  - unfold export_ids. rewrite elem_of_list_to_set, assign_index, loc_index, <- Hl.
    rewrite list_elem_of_filter. naive_solver.
Qed.

Lemma bind_ext_elem {A B} (f g : A → list B) (l : list A) :
  (∀ x, x ∈ l → f x = g x) → l ≫= f = l ≫= g.
Proof.
  induction l as [|a l IH]; intros Hfg; [done|]. cbn.
  rewrite Hfg by apply list_elem_of_here. f_equal.
  apply IH. intros x Hx. apply Hfg. by apply list_elem_of_further.
Qed.

Lemma filter_label_absent (l : Z) (rs : list row) :
  l ∉ map label rs → filter (λ r, label r = l) rs = [].
Proof.
  intros Hl. induction rs as [|r rs IH]; [done|].
  rewrite filter_cons. cbn in Hl. apply not_elem_of_cons in Hl as [Hne Hl].
  rewrite decide_False by done. by apply IH.
Qed.

(** With labels that are all different, as in an index read from a CSV
    file or cut from one, [loc] on the labels picked by a test is the rows
    picked by the test, in order. *)
Lemma loc_filter_unique (P : Z → Prop) `{∀ x, Decision (P x)} df :
  NoDup (index df) →
  loc (filter P (index df)) df
  = Frame (columns df) (filter (λ r, P (label r)) (rows df)).
Proof.
  unfold loc, index. intros Hnd. f_equal.
  induction (rows df) as [|r rs IH]; [done|].
  cbn in Hnd. apply NoDup_cons in Hnd as [Hr Hnd].
  assert (Hrest : ∀ L, (∀ l, l ∈ L → l ∈ map label rs) →
            L ≫= (λ l, filter (λ x, label x = l) (r :: rs))
            = L ≫= (λ l, filter (λ x, label x = l) rs)).
  { intros L HL. apply bind_ext_elem. intros l Hl. rewrite filter_cons.
    rewrite decide_False; [done|]. intros Heq. apply Hr. rewrite Heq. auto. }
  cbn [map]. rewrite !filter_cons. destruct (decide (P (label r))) as [HP|HP].
  - cbn [mbind list_bind]. change (list_bind ?f ?l) with (l ≫= f).
    rewrite filter_cons, decide_True by done.
    rewrite filter_label_absent by done. cbn [app]. f_equal.
    rewrite Hrest; [by apply IH|].
    intros l Hl. by apply list_elem_of_filter in Hl as [_ Hl].
  - rewrite Hrest; [by apply IH|].
    intros l Hl. by apply list_elem_of_filter in Hl as [_ Hl].
Qed.

(** Boolean indexing keeps the labels different. *)
Lemma select_unique p df : NoDup (index df) → NoDup (index (select p df)).
Proof.
  unfold index, select. cbn. induction (rows df) as [|r rs IH]; [done|].
  cbn [map]. intros [Hr Hnd]%NoDup_cons. rewrite filter_cons.
  case_decide; [|by apply IH]. cbn [map]. apply NoDup_cons.
  split; [|by apply IH].
  intros Hin. apply Hr. apply list_elem_of_fmap in Hin as (x & -> & Hx).
  apply list_elem_of_filter in Hx as [_ Hx]. apply list_elem_of_fmap. eauto.
Qed.

(** On a view whose labels are all different, the reviewed export is made
    of the reviewed rows of the view, each once and in order, and the
    non-reviewed export of the others. *)
Lemma exports_rows_unique (filtered_df : DataFrame) (reviewed : gset Z) :
  NoDup (index filtered_df) →
  let e := App.export_buttons filtered_df reviewed in
  from_option index [] (App.reviewed_only e)
  = filter (λ id, id ∈ reviewed) (index filtered_df)
  ∧ from_option index [] (App.non_reviewed_only e)
    = filter (λ id, id ∉ reviewed) (index filtered_df)
  ∧ from_option index [] (App.all_filtered e) = index filtered_df.
Proof.
  intros Hnd. cbn zeta. unfold App.export_buttons.
  assert (Hidx : ∀ (P : Z → Prop) `{∀ x, Decision (P x)} c v,
            index (assign c v (loc (filter P (index filtered_df)) filtered_df))
            = filter P (index filtered_df)).
  { intros P HP c v. rewrite assign_index, loc_filter_unique by done.
    unfold index. cbn. induction (rows filtered_df) as [|r rs IH]; [done|].
    cbn [map]. rewrite !filter_cons. case_decide; cbn; by rewrite IH. }
  destruct (0 <? len filtered_df) eqn:Hlen.
  - cbn [App.all_filtered App.reviewed_only App.non_reviewed_only].
    split_and!.
    + destruct (filter _ (index filtered_df)) as [|l ls] eqn:Hl; [done|].
      rewrite <- Hl. cbn [from_option]. by rewrite Hidx.
    + destruct (filter _ (index filtered_df)) as [|l ls] eqn:Hl; [done|].
      rewrite <- Hl. cbn [from_option]. by rewrite Hidx.
    + cbn [from_option]. by rewrite assign_index.
  - pose proof (len_not_positive _ Hlen) as Hrows.
    unfold index. rewrite Hrows. done.
Qed.

(** C4: of the three exports of a filtered view, the reviewed one and the
    non-reviewed one split the full one: together their row identifiers are
    those of the full export, that is those of the view; no identifier is in
    both; an identifier of the view is in the reviewed export exactly when
    it is in the review set, and in the non-reviewed one exactly when it is
    not. *)
Theorem exports_partition (filtered_df : DataFrame) (reviewed : gset Z) :
  let e := App.export_buttons filtered_df reviewed in
  export_ids (App.all_filtered e) = list_to_set (index filtered_df)
  ∧ export_ids (App.reviewed_only e) ∪ export_ids (App.non_reviewed_only e)
    = export_ids (App.all_filtered e)
  ∧ export_ids (App.reviewed_only e) ## export_ids (App.non_reviewed_only e)
  ∧ (∀ id, id ∈ export_ids (App.reviewed_only e)
           ↔ id ∈ index filtered_df ∧ id ∈ reviewed)
  ∧ (∀ id, id ∈ export_ids (App.non_reviewed_only e)
           ↔ id ∈ index filtered_df ∧ id ∉ reviewed).
Proof.
  cbn zeta. unfold App.export_buttons.
  destruct (0 <? len filtered_df) eqn:Hlen.
  - cbn [App.all_filtered App.reviewed_only App.non_reviewed_only].
    pose proof (export_ids_loc "reviewed_status" (λ _ : row, CBool true)
                  (λ idx, idx ∈ reviewed) filtered_df) as Hrev.
    pose proof (export_ids_loc "reviewed_status" (λ _ : row, CBool false)
                  (λ idx, idx ∉ reviewed) filtered_df) as Hnon.
    cbn beta in Hrev, Hnon.
    set (rev := export_ids _) in Hrev |- *.
    set (non := export_ids _) in Hnon |- *.
    assert (Hall : export_ids (Some (assign "reviewed_status"
                     (λ r, CBool (index_isin reviewed r)) filtered_df))
                   = list_to_set (index filtered_df)).
    { unfold export_ids. by rewrite assign_index. }
    rewrite Hall. split_and!; [done| | |done|done].
    + apply set_eq. intros id. rewrite elem_of_union, Hrev, Hnon.
      rewrite elem_of_list_to_set. destruct (decide (id ∈ reviewed)); naive_solver.
    + apply elem_of_disjoint. intros id. rewrite Hrev, Hnon. naive_solver.
  - pose proof (len_not_positive _ Hlen) as Hrows.
    unfold index. rewrite Hrows. cbn. split_and!; set_solver.
Qed.

End exports.

(** ** Pagination *)

Section pagination.



Lemma ceil_div_bound total size :
  0 < size → 0 ≤ total →
  0 ≤ ceil_div total size ∧ total ≤ ceil_div total size * size
  ∧ (ceil_div total size - 1) * size < total ∨ total = 0.
Proof.
  intros Hs Ht. unfold ceil_div.
  pose proof (Z.div_mod (total + size - 1) size ltac:(lia)) as Hdm.
  pose proof (Z.mod_pos_bound (total + size - 1) size Hs) as Hm.
  destruct (decide (total = 0)) as [->|Hne]; [by right|]. left.
  assert (0 ≤ (total + size - 1) `div` size) by (apply Z.div_pos; lia).
  split_and!; nia.
Qed.

(** A page inside the range is the stretch of rows the formula names. *)
Lemma page_data_rows df size p :
  0 < size → 1 ≤ p ≤ ceil_div (len df) size →
  columns (App.page_data df size p) = columns df
  ∧ rows (App.page_data df size p)
    = positions ((p - 1) * size) (Z.min (p * size) (len df)) (rows df).
Proof.
  intros Hs Hp. split; [done|].
  unfold App.page_data, iloc, positions. cbn [rows].
  assert (Hn : 0 ≤ len df) by (unfold len; lia).
  destruct (ceil_div_bound (len df) size Hs Hn) as [(_ & _ & Hlast)|H0];
    [|rewrite H0 in Hp; unfold ceil_div in Hp;
      rewrite Z.div_small in Hp by lia; lia].
  assert (Hstart : 0 ≤ (p - 1) * size < len df) by nia.
  replace ((p - 1) * size + size) with (p * size) by lia.
  unfold slice_bound.
  rewrite (proj2 (Z.ltb_ge _ 0)) by lia.
  rewrite (proj2 (Z.ltb_ge _ 0)) by lia.
  rewrite (Z.min_l ((p - 1) * size)) by lia.
  rewrite (Z.min_l (Z.min _ _) (len df)) by lia. done.
Qed.



Lemma items_per_page_positive size :
  size ∈ App.items_per_page_options → 0 < size.
Proof.
  unfold App.items_per_page_options. rewrite !elem_of_cons, elem_of_nil. lia.
Qed.


End pagination.

(** * Further properties of the code *)

(** ** The review set of the manager *)

Section manager_review_set.
Context `{PyNumeric}.
Import DataManager.

Lemma manager_eq d X Y : X = Y → Manager d X = Manager d Y.
Proof. by intros ->. Qed.

(** X1: what [_save_reviewed_state] writes to the session,
    [_load_reviewed_state] reads back: after [mark_reviewed],
    [unmark_reviewed] or [clear_reviewed_state], a manager created on the
    session state has the review set of the manager that saved it, and no
    table. *)
Theorem session_round_trip (id : Z) (self : t) (ss : session_state) :
  reviewed_items (__init__ (mark_reviewed id self ss).2)
  = reviewed_items (mark_reviewed id self ss).1
  ∧ reviewed_items (__init__ (unmark_reviewed id self ss).2)
    = reviewed_items (unmark_reviewed id self ss).1
  ∧ reviewed_items (__init__ (clear_reviewed_state self ss).2) = ∅
  ∧ data (__init__ (mark_reviewed id self ss).2) = None.
Proof.
  unfold __init__, _load_reviewed_state. cbn.
  rewrite !list_to_set_elements_L. done.
Qed.

(** X2: [mark_reviewed id] makes [id] reviewed and changes the state of no
    other identifier; it keeps the table; on an identifier that is already
    reviewed it changes nothing, so marking twice is marking once. *)
Theorem mark_reviewed_effect (id : Z) (self : t) (ss : session_state) :
  let marked := (mark_reviewed id self ss).1 in
  is_reviewed id marked = true
  ∧ (∀ other, other ≠ id → is_reviewed other marked = is_reviewed other self)
  ∧ data marked = data self
  ∧ (mark_reviewed id marked (mark_reviewed id self ss).2).1 = marked
  ∧ (is_reviewed id self = true → reviewed_items marked = reviewed_items self).
Proof.
  cbn. split_and!.
  - apply is_reviewed_true. cbn. apply elem_of_union_l, elem_of_singleton. done.
  - intros other Hne. unfold is_reviewed. cbn. apply bool_decide_ext.
    rewrite elem_of_union, elem_of_singleton. tauto.
  - done.
  - apply manager_eq, set_eq. intros x.
    rewrite !elem_of_union, elem_of_singleton. tauto.
  - intros Hin%is_reviewed_true. apply set_eq. intros x.
    rewrite elem_of_union, elem_of_singleton. split; [|tauto].
    intros [->|Hx]; done.
Qed.

(** X3: [unmark_reviewed id] leaves [id] not reviewed and changes the state
    of no other identifier; on an identifier that is not reviewed it raises
    nothing and changes nothing, so unmarking twice is unmarking once. *)
Theorem unmark_reviewed_effect (id : Z) (self : t) (ss : session_state) :
  let unmarked := (unmark_reviewed id self ss).1 in
  is_reviewed id unmarked = false
  ∧ (∀ other, other ≠ id → is_reviewed other unmarked = is_reviewed other self)
  ∧ data unmarked = data self
  ∧ (unmark_reviewed id unmarked (unmark_reviewed id self ss).2).1 = unmarked
  ∧ (is_reviewed id self = false → reviewed_items unmarked = reviewed_items self).
Proof.
  cbn. split_and!.
  - apply is_reviewed_false. cbn. rewrite elem_of_difference, elem_of_singleton.
    tauto.
  - intros other Hne. unfold is_reviewed. cbn. apply bool_decide_ext.
    rewrite elem_of_difference, elem_of_singleton. tauto.
  - done.
  - apply manager_eq, set_eq. intros x.
    rewrite !elem_of_difference, elem_of_singleton. tauto.
  - intros Hout%is_reviewed_false. apply set_eq. intros x.
    rewrite elem_of_difference, elem_of_singleton. split; [tauto|].
    intros Hx. split; [done|]. by intros ->.
Qed.

Lemma size_mark (id : Z) (X : gset Z) :
  Z.of_nat (size ({[id]} ∪ X))
  = Z.of_nat (size X) + (if bool_decide (id ∈ X) then 0 else 1).
Proof.
  case_bool_decide as Hin.
  - replace ({[id]} ∪ X) with X; [lia|].
    apply set_eq. intros x. rewrite elem_of_union, elem_of_singleton.
    split; [tauto|]. intros [->|Hx]; done.
  - rewrite size_union by (apply disjoint_singleton_l; done).
    rewrite size_singleton. lia.
Qed.

Lemma size_unmark (id : Z) (X : gset Z) :
  Z.of_nat (size (X ∖ {[id]}))
  = Z.of_nat (size X) - (if bool_decide (id ∈ X) then 1 else 0).
Proof.
  case_bool_decide as Hin.
  - assert (HX : X = {[id]} ∪ X ∖ {[id]}).
    { apply set_eq. intros x.
      rewrite elem_of_union, elem_of_difference, elem_of_singleton.
      destruct (decide (x = id)) as [->|]; tauto. }
    assert (Hs : size X = S (size (X ∖ {[id]}))); [|lia].
    rewrite HX at 1. rewrite size_union, size_singleton; [done|].
    apply disjoint_singleton_l. rewrite elem_of_difference, elem_of_singleton.
    tauto.
  - replace (X ∖ {[id]}) with X; [lia|].
    apply set_eq. intros x. rewrite elem_of_difference, elem_of_singleton.
    split; [|tauto]. intros Hx. split; [done|]. by intros ->.
Qed.

(** X4: in [get_review_stats], marking an identifier that is not reviewed
    raises [reviewed] by one and lowers [pending] by one, unmarking a
    reviewed one does the reverse, and marking a reviewed or unmarking an
    unreviewed identifier leaves the counts as they are; [total] follows the
    table only. *)
Theorem review_stats_of_marks (id : Z) (self : t) (ss : session_state) :
  let before := get_review_stats self in
  let marked := get_review_stats (mark_reviewed id self ss).1 in
  let unmarked := get_review_stats (unmark_reviewed id self ss).1 in
  total marked = total before ∧ total unmarked = total before
  ∧ reviewed marked = reviewed before + (if is_reviewed id self then 0 else 1)
  ∧ pending marked = pending before - (if is_reviewed id self then 0 else 1)
  ∧ reviewed unmarked = reviewed before - (if is_reviewed id self then 1 else 0)
  ∧ pending unmarked = pending before + (if is_reviewed id self then 1 else 0).
Proof.
  cbn. unfold is_reviewed. rewrite size_mark, size_unmark.
  split_and!; try done; lia.
Qed.

(** X5: when every reviewed identifier labels a row of the loaded table,
    [get_review_stats] counts no more reviewed rows than rows, and
    [pending] is not negative.  (Nothing keeps the review set within the
    table: the counts come from the set alone.) *)
Theorem review_stats_bounds (self : t) (d : DataFrame) :
  data self = Some d →
  (∀ id, id ∈ reviewed_items self → id ∈ index d) →
  let stats := get_review_stats self in
  total stats = len d
  ∧ 0 ≤ reviewed stats ≤ total stats
  ∧ 0 ≤ pending stats ≤ total stats.
Proof.
  intros Hd Hsub. cbn. rewrite Hd.
  assert (Hsize : (size (reviewed_items self) ≤ length (index d))%nat).
  { apply submseteq_length, NoDup_submseteq; [apply NoDup_elements|].
    intros id Hid%elem_of_elements. auto. }
  unfold index in Hsize. rewrite length_map in Hsize. unfold len.
  split_and!; try done; lia.
Qed.

End manager_review_set.

(** ** The filter of the manager *)

Section manager_filter.
Context `{PyRuntime}.
Import DataManager.

Lemma select_select p q df :
  select p (select q df) = select (λ r, q r && p r) df.
Proof.
  unfold select. cbn. f_equal. induction (rows df) as [|r rs IH]; [done|].
  rewrite !filter_cons. destruct (q r) eqn:Hq; cbn.
  - rewrite decide_True by done. rewrite filter_cons.
    destruct (p r); cbn; by rewrite IH.
  - rewrite decide_False by done. rewrite decide_False by done. done.
Qed.

Lemma select_true df : select (λ _, true) df = df.
Proof. apply select_all. by apply Forall_forall. Qed.

Lemma cut_from_refl d : cut_from d d.
Proof. by split. Qed.

Lemma cut_from_trans d1 d2 d3 : cut_from d1 d2 → cut_from d2 d3 → cut_from d1 d3.
Proof. intros [Hc1 Hr1] [Hc2 Hr2]. split; [congruence|by etrans]. Qed.

Lemma cut_from_select p d : cut_from d (select p d).
Proof. split; [done|]. apply sublist_filter. Qed.

Lemma cut_from_isin c vals d out : isin_filter c vals d = Ok out → cut_from d out.
Proof.
  unfold isin_filter. case_decide; [|done]. intros [= <-]. apply cut_from_select.
Qed.

Lemma cut_from_score lo hi d out : score_between lo hi d = Ok out → cut_from d out.
Proof.
  unfold score_between. case_decide; [|done].
  destruct (existsb _ _); [done|]. intros [= <-]. apply cut_from_select.
Qed.

Lemma cut_from_search term d out : search term d = Ok out → cut_from d out.
Proof.
  unfold search. destruct (empty d).
  - intros [= <-]. split; [done|]. apply sublist_nil_l.
  - destruct (re_compile term); [|done]. intros [= <-]. apply cut_from_select.
Qed.

(** X6: whatever the filters, a table that [filter_data] returns is cut
    from the loaded one: it has its columns, and its rows are rows of the
    loaded table, unchanged and in the order they have there. *)
Theorem filter_data_cut (f : filters) (self : t) (d out : DataFrame) :
  data self = Some d →
  filter_data f self = Ok out →
  columns out = columns d ∧ sublist (rows out) (rows d).
Proof.
  intros Hd. unfold filter_data. rewrite Hd.
  change (?m ≫= ?k) with (mbind k m). unfold mbind, result_bind.
  destruct (match languages f with
            | Some (v :: vs) => isin_filter "language" (v :: vs) d
            | _ => Ok d
            end) as [d1|] eqn:H1; [|done].
  assert (C1 : cut_from d d1).
  { destruct (languages f) as [[|v vs]|];
      [injection H1 as <-; apply cut_from_refl
      |by eapply cut_from_isin
      |injection H1 as <-; apply cut_from_refl]. }
  destruct (match qualifications f with
            | Some (v :: vs) => isin_filter "qualification_name" (v :: vs) d1
            | _ => Ok d1
            end) as [d2|] eqn:H2; [|done].
  assert (C2 : cut_from d1 d2).
  { destruct (qualifications f) as [[|v vs]|];
      [injection H2 as <-; apply cut_from_refl
      |by eapply cut_from_isin
      |injection H2 as <-; apply cut_from_refl]. }
  destruct (match score_min f, score_max f with
            | Some lo, Some hi => score_between lo hi d2
            | _, _ => Ok d2
            end) as [d3|] eqn:H3; [|done].
  assert (C3 : cut_from d2 d3).
  { destruct (score_min f), (score_max f);
      [by eapply cut_from_score|injection H3 as <-; apply cut_from_refl..]. }
  set (d4 := match review_status f with
             | Some status => _
             | None => d3
             end).
  assert (C4 : cut_from d3 d4).
  { unfold d4. destruct (review_status f); [|apply cut_from_refl].
    repeat case_decide; first [apply cut_from_select|apply cut_from_refl]. }
  intros Hout.
  assert (C5 : cut_from d4 out).
  { destruct (search_term f) as [[|a t]|];
      [injection Hout as <-; apply cut_from_refl
      |by eapply cut_from_search
      |injection Hout as <-; apply cut_from_refl]. }
  apply (cut_from_trans d d4); [|done].
  apply (cut_from_trans d d3); [|done].
  apply (cut_from_trans d d2); [|done].
  by apply (cut_from_trans d d1).
Qed.

Lemma numeric_select p d : numeric_score d → numeric_score (select p d).
Proof.
  intros [Hc Hr]. split; [done|]. cbn. rewrite Forall_forall in Hr.
  apply Forall_forall. intros r [_ Hin]%list_elem_of_filter. auto.
Qed.

Lemma numeric_loaded df self d :
  data (load_data df self) = Some d → numeric_score d.
Proof. apply load_data_score. Qed.

Lemma score_between_within lo hi d :
  numeric_score d →
  score_between lo hi d = Ok (select (λ r, within lo hi (score r)) d).
Proof.
  intros [Hc Hr]. rewrite score_between_numeric by done.
  by rewrite score_in_range_within.
Qed.

Lemma isin_filter_cases c vals d :
  isin_filter c vals d
  = if decide (c ∈ columns d) then Ok (select (λ r, isin vals (row_cell r c)) d)
    else Raise (KeyError c).
Proof. done. Qed.

Ltac fuse_selects :=
  first
    [ symmetry; apply select_all, Forall_forall; intros ? _; reflexivity
    | rewrite ?select_select; apply select_ext, Forall_forall; intros ? _; cbn;
      rewrite ?andb_true_r, ?andb_assoc; reflexivity ].

(** On a table with a numeric score, [filter_data] is one selection, by the
    conjunction of the active predicates, followed by the search, unless an
    active filter asks for a column the table does not have. *)
Lemma filter_data_numeric f d rv :
  numeric_score d →
  filter_data f (Manager (Some d) rv)
  = match missing_key f d with
    | Some k => Raise (KeyError k)
    | None =>
        match search_term f with
        | Some (String a t) => search (String a t) (select (passes f rv) d)
        | _ => Ok (select (passes f rv) d)
        end
    end.
Proof.
  intros Hnum. unfold filter_data, missing_key, passes.
  cbn [data reviewed_items].
  change (?m ≫= ?k) with (mbind k m). unfold mbind, result_bind.
  destruct (languages f) as [[|v vs]|];
    rewrite ?isin_filter_cases; repeat case_decide; try done.
  all: destruct (qualifications f) as [[|w ws]|];
    rewrite ?isin_filter_cases; cbn [columns select]; repeat case_decide;
    try done.
  all: destruct (score_min f) as [lo|], (score_max f) as [hi|];
    rewrite ?score_between_within by (repeat apply numeric_select; done).
  all: destruct (review_status f) as [status|]; repeat case_decide.
  all: destruct (search_term f) as [[|a t]|].
  all: f_equal; fuse_selects.
Qed.

(** X7: on a loaded table, [filter_data] keeps the rows that pass every
    active filter at once: its steps amount to one selection by the
    conjunction of the language, qualification, score and review-status
    predicates (a filter that is not passed, or passed empty, counts as
    true), followed by the search; it raises [KeyError] instead when an
    active language or qualification filter finds no such column. *)
Theorem filter_data_conjunction (f : filters) (df : DataFrame) (self : t) :
  ∃ d, data (load_data df self) = Some d
       ∧ filter_data f (load_data df self)
         = match missing_key f d with
           | Some k => Raise (KeyError k)
           | None =>
               match search_term f with
               | Some (String a t) =>
                   search (String a t) (select (passes f (reviewed_items self)) d)
               | _ => Ok (select (passes f (reviewed_items self)) d)
               end
           end.
Proof.
  destruct (load_data_loaded df self) as [d Hd]. exists d. split; [done|].
  rewrite <- (filter_data_numeric f d (reviewed_items self))
    by by eapply numeric_loaded.
  revert Hd. unfold load_data. cbn. by intros [= <-].
Qed.

Lemma search_raises term d e :
  search term d = Raise e → e = ReError term ∧ re_compile term = None.
Proof.
  unfold search. destruct (empty d); [done|].
  destruct (re_compile term); [done|]. by intros [= <-].
Qed.

Lemma load_data_manager df self d :
  data (load_data df self) = Some d →
  load_data df self = Manager (Some d) (reviewed_items self).
Proof. unfold load_data. cbn. by intros [= <-]. Qed.

(** X8: on a loaded table [filter_data] raises nothing but [KeyError] for
    the [language] or the [qualification_name] column, or [re.error] for a
    search term the regular-expression engine rejects; it never fails on
    the score column, which [load_data] has made numeric. *)
Theorem filter_data_exceptions (f : filters) (df : DataFrame) (self : t) (e : exn) :
  filter_data f (load_data df self) = Raise e →
  e = KeyError "language"
  ∨ e = KeyError "qualification_name"
  ∨ ∃ term, search_term f = Some term ∧ re_compile term = None
            ∧ e = ReError term.
Proof.
  destruct (load_data_loaded df self) as [d Hd].
  rewrite (load_data_manager _ _ _ Hd).
  rewrite filter_data_numeric by by eapply numeric_loaded.
  unfold missing_key.
  destruct (languages f) as [[|v vs]|], (qualifications f) as [[|w ws]|];
    repeat case_decide; try (intros [= <-]; auto; fail).
  all: destruct (search_term f) as [[|a t]|]; try done.
  all: intros [-> Hre]%search_raises; eauto 6.
Qed.

Lemma load_data_columns df self d c :
  data (load_data df self) = Some d → c ≠ "score" →
  c ∈ columns d ↔ c ∈ columns df.
Proof.
  unfold load_data. cbn. intros [= <-] Hc.
  case_decide; rewrite assign_columns; repeat case_decide; try done.
  rewrite elem_of_app, list_elem_of_singleton. tauto.
Qed.

(** X9: [filter_data] raises [KeyError] for [language] exactly when a
    language filter that is not empty is passed for a table loaded without
    a [language] column. *)
Theorem filter_data_missing_language (f : filters) (df : DataFrame) (self : t) :
  filter_data f (load_data df self) = Raise (KeyError "language")
  ↔ (∃ v vs, languages f = Some (v :: vs)) ∧ "language" ∉ columns df.
Proof.
  destruct (load_data_loaded df self) as [d Hd].
  rewrite (load_data_manager _ _ _ Hd).
  rewrite filter_data_numeric by by eapply numeric_loaded.
  rewrite <- (load_data_columns df self d "language" Hd) by done.
  assert (Htail : ∀ X k,
            match search_term f with
            | Some (String a t) => search (String a t) X
            | _ => Ok X
            end ≠ Raise (KeyError k)).
  { intros X k. destruct (search_term f) as [[|a t]|]; try done.
    by intros [[=] _]%search_raises. }
  unfold missing_key.
  destruct (languages f) as [[|v vs]|].
  - split; [|by intros [(? & ? & [=]) _]].
    destruct (qualifications f) as [[|w ws]|]; repeat case_decide;
      try done; intros Hr; by apply Htail in Hr.
  - case_decide as Hlang.
    + split; [|by intros [_ ?]].
      destruct (qualifications f) as [[|w ws]|]; repeat case_decide;
        try done; intros Hr; by apply Htail in Hr.
    + split; [eauto|done].
  - split; [|by intros [(? & ? & [=]) _]].
    destruct (qualifications f) as [[|w ws]|]; repeat case_decide;
      try done; intros Hr; by apply Htail in Hr.
Qed.

Lemma passes_reviewed f rv r :
  passes (with_status (Some "reviewed") f) rv r
  = passes (with_status None f) rv r && index_isin rv r.
Proof.
  unfold passes, with_status. cbn.
  rewrite decide_True by done. by rewrite andb_true_r.
Qed.

Lemma passes_not_reviewed f rv r :
  passes (with_status (Some "not_reviewed") f) rv r
  = passes (with_status None f) rv r && negb (index_isin rv r).
Proof.
  unfold passes, with_status. cbn.
  rewrite decide_False by done. rewrite decide_True by done.
  by rewrite andb_true_r.
Qed.

Lemma filter_comm {A} (p q : A → bool) (l : list A) :
  filter (λ x, q x = true) (filter (λ x, p x = true) l)
  = filter (λ x, p x = true) (filter (λ x, q x = true) l).
Proof.
  rewrite !list_filter_filter. apply list_filter_iff. intros x. tauto.
Qed.

(** The search of a selection is the selection of the search. *)
Lemma search_select term q d out :
  search term d = Ok out → search term (select q d) = Ok (select q out).
Proof.
  unfold search. destruct (empty d) eqn:He.
  - intros [= <-].
    assert (empty (select q d) = true) as ->; [|done].
    unfold empty in *. cbn. destruct (rows d) as [|r rs]; [done|].
    destruct (columns d); [|done]. by destruct (filter _ _).
  - destruct (re_compile term) as [found|]; [|done]. intros [= <-].
    destruct (empty (select q d)) eqn:Hq.
    + unfold select. cbn. f_equal. f_equal.
      assert (Hrows : filter (λ r, q r = true) (rows d) = []).
      { unfold empty in He, Hq. cbn in Hq.
        destruct (filter _ (rows d)); [done|].
        destruct (rows d); [done|]. by destruct (columns d). }
      rewrite (filter_comm _ q). by rewrite Hrows.
    + unfold select. cbn. f_equal. f_equal.
      apply (filter_comm q).
Qed.

(** X10: on a loaded table the review-status filter splits a view in two:
    with the other filters fixed, the 'reviewed' view is made of the rows
    of the unrestricted view whose label is in the review set, and the
    'not_reviewed' view of the other rows, each in their order. *)
Theorem review_views_partition
    (f : filters) (df : DataFrame) (self : t) (all : DataFrame) :
  filter_data (with_status None f) (load_data df self) = Ok all →
  filter_data (with_status (Some "reviewed") f) (load_data df self)
  = Ok (select (λ r, bool_decide (label r ∈ reviewed_items self)) all)
  ∧ filter_data (with_status (Some "not_reviewed") f) (load_data df self)
    = Ok (select (λ r, negb (bool_decide (label r ∈ reviewed_items self))) all).
Proof.
  destruct (load_data_loaded df self) as [d Hd].
  rewrite (load_data_manager _ _ _ Hd).
  rewrite !filter_data_numeric by by eapply numeric_loaded.
  change (missing_key (with_status _ f) d) with (missing_key f d).
  change (search_term (with_status _ f)) with (search_term f).
  destruct (missing_key f d); [done|].
  set (rv := reviewed_items self).
  assert (Hrev : select (passes (with_status (Some "reviewed") f) rv) d
                 = select (index_isin rv) (select (passes (with_status None f) rv) d))
    by (rewrite select_select; apply select_ext, Forall_forall;
        intros r _; apply passes_reviewed).
  assert (Hnot : select (passes (with_status (Some "not_reviewed") f) rv) d
                 = select (λ r, negb (index_isin rv r))
                          (select (passes (with_status None f) rv) d))
    by (rewrite select_select; apply select_ext, Forall_forall;
        intros r _; apply passes_not_reviewed).
  rewrite Hrev, Hnot.
  destruct (search_term f) as [[|a t]|].
  - by intros [= <-].
  - intros Hall. by rewrite !(search_select _ _ _ _ Hall).
  - by intros [= <-].
Qed.

(** X11: [filter_data] filters by review status for the values 'reviewed'
    and 'not_reviewed' only.  With any of the values the status selector
    offers ('All', 'Reviewed', 'Not Reviewed') it returns what it returns
    without a review status. *)
Theorem status_options_ignored (f : filters) (self : t) (status : string) :
  status ∈ App.review_status_options →
  filter_data (with_status (Some status) f) self
  = filter_data (with_status None f) self.
Proof.
  intros Hstatus. unfold filter_data, with_status.
  cbn [languages qualifications score_min score_max review_status search_term].
  assert (Hr : status ≠ "reviewed" ∧ status ≠ "not_reviewed").
  { unfold App.review_status_options in Hstatus.
    rewrite !elem_of_cons, elem_of_nil in Hstatus.
    destruct Hstatus as [->|[->|[->|[]]]]; done. }
  destruct Hr as [Hr Hn].
  destruct (decide (status = "reviewed")) as [?|_]; [done|].
  destruct (decide (status = "not_reviewed")) as [?|_]; [done|].
  done.
Qed.

(** X12: the filter written out in [main] and [filter_data] are the same
    filter on a table that has a [score] column: with the selections, the
    slider bounds, the search term and the status of the widgets passed as
    keyword arguments ('Reviewed' as 'reviewed', 'Not Reviewed' as
    'not_reviewed'), [filter_data] on the table loaded from an upload
    returns, or raises, what the app's filter does on its working table. *)
Theorem app_filter_agrees
    (w : App.widgets) (reviewed : gset Z) (current : DataFrame)
    (table : option DataFrame) :
  "score" ∈ columns current →
  App.apply_filters w reviewed (App.working_table current)
  = filter_data (kwargs_of w) (load_data current (Manager table reviewed)).
Proof.
  intros Hscore. unfold load_data, App.working_table.
  rewrite !decide_True by done.
  set (d := assign "score" _ current).
  assert (Hd : "score" ∈ columns d) by apply assign_has_column.
  unfold App.apply_filters, filter_data, kwargs_of, App.score_range.
  cbn [data reviewed_items languages qualifications score_min score_max
       review_status search_term].
  rewrite (decide_True (P := "score" ∈ columns d)) by done.
  change (?m ≫= ?k) with (mbind k m). unfold mbind, result_bind.
  destruct (App.selected_languages w) as [|v vs];
    rewrite ?isin_filter_cases; repeat case_decide; try done.
  all: destruct (App.selected_qualifications w) as [|q qs];
    rewrite ?isin_filter_cases; cbn [columns select]; repeat case_decide;
    try done.
  all: try (rewrite (decide_True (P := "score" ∈ columns d)) by done).
  all: destruct (score_between _ _ _); try done.
  all: destruct (App.search_term w); done.
Qed.

(** A column that is all booleans or all floats is left as it is by
    [to_numeric]. *)
Lemma to_numeric_fixed col c :
  c ∈ col → Forall (λ c, is_str c = false) col →
  (forallb is_bool col = true ∨ Forall (λ c, is_bool c = false) col) →
  to_numeric col c = c.
Proof.
  intros Hc Hstr Hkind. unfold to_numeric.
  destruct (forallb is_bool col) eqn:Hb; [done|].
  destruct Hkind as [|Hnb]; [done|].
  rewrite Forall_forall in Hstr, Hnb.
  specialize (Hstr c Hc). specialize (Hnb c Hc). by destruct c.
Qed.

Lemma to_numeric_kind col :
  forallb is_bool (map (to_numeric col) col) = true
  ∨ Forall (λ c, is_bool c = false) (map (to_numeric col) col).
Proof.
  unfold to_numeric. destruct (forallb is_bool col) eqn:Hb.
  - left. by rewrite map_id.
  - right. apply Forall_forall. intros c (c0 & -> & _)%list_elem_of_fmap.
    by destruct c0.
Qed.

Lemma assign_column c v df :
  column c (assign c v df) = map v (rows df).
Proof.
  unfold column, assign. cbn. rewrite map_map. apply map_ext. intros r.
  unfold row_cell. cbn. by rewrite lookup_insert_eq.
Qed.

Lemma assign_same c v df :
  c ∈ columns df →
  Forall (λ r, cells r !! c = Some (v r)) (rows df) →
  assign c v df = df.
Proof.
  intros Hc Hrows. unfold assign. rewrite decide_True by done.
  destruct df as [cs rs]. cbn in *. f_equal.
  induction Hrows as [|r rs Hr _ IH]; [done|]. cbn. rewrite IH. f_equal.
  destruct r as [l m]. cbn in *. f_equal. by apply insert_id.
Qed.

(** X13: a loaded table is a fixed point of [load_data]: loading the table
    a manager holds gives that table again, the score column included. *)
Theorem load_data_idempotent (df : DataFrame) (self other : t) :
  ∃ d, data (load_data df self) = Some d
       ∧ data (load_data d other) = Some d.
Proof.
  destruct (load_data_loaded df self) as [d Hd]. exists d. split; [done|].
  destruct (numeric_loaded _ _ _ Hd) as [Hc Hrows].
  assert (Hcol : Forall (λ c, is_str c = false) (column "score" d)
                 ∧ (forallb is_bool (column "score" d) = true
                    ∨ Forall (λ c, is_bool c = false) (column "score" d))
                 ∧ Forall (λ r, cells r !! "score" = Some (row_cell r "score"))
                          (rows d)).
  { revert Hd. unfold load_data. cbn. intros [= <-]. case_decide.
    - rewrite assign_column.
      replace (map (λ r, to_numeric (column "score" df) (row_cell r "score"))
                   (rows df))
        with (map (to_numeric (column "score" df)) (column "score" df))
        by (unfold column; by rewrite map_map).
      split_and!.
      + apply Forall_forall. intros c (c0 & -> & Hc0)%list_elem_of_fmap.
        by apply to_numeric_not_str.
      + apply (to_numeric_kind (column "score" df)).
      + apply Forall_forall. intros r' (r & -> & _)%list_elem_of_fmap.
        unfold row_cell. cbn. by rewrite lookup_insert_eq.
    - rewrite assign_column. split_and!.
      + apply Forall_forall. by intros c (r & -> & _)%list_elem_of_fmap.
      + right. apply Forall_forall. by intros c (r & -> & _)%list_elem_of_fmap.
      + apply Forall_forall. intros r' (r & -> & _)%list_elem_of_fmap.
        unfold row_cell. cbn. by rewrite lookup_insert_eq. }
  destruct Hcol as (Hstr & Hkind & Hcells).
  unfold load_data. cbn. rewrite decide_True by done. f_equal.
  apply assign_same; [done|].
  rewrite Forall_forall in Hcells. apply Forall_forall. intros r Hr.
  rewrite (Hcells r Hr). f_equal. symmetry. apply to_numeric_fixed; [|done..].
  unfold column. apply list_elem_of_fmap. eauto.
Qed.

End manager_filter.

(** ** Score tiers, colours and statistics *)

Section score_tiers.
Context `{PyRuntime} `{PyNumeric}.

(** The bounds 0.8 and 0.5 are the float64 values nearest to them, in
    Python as here. *)
Set Warnings "-inexact-float".

Lemma ltb_present x y :
  PrimFloat.ltb x y = true → PrimFloat.is_nan x = false ∧ PrimFloat.is_nan y = false.
Proof. intros Hlt. by apply leb_present, ltb_leb. Qed.

Lemma ltb_not_leb x y :
  PrimFloat.is_nan x = false → PrimFloat.is_nan y = false →
  PrimFloat.ltb x y = negb (PrimFloat.leb y x).
Proof.
  rewrite !is_nan_false, FloatAxioms.ltb_spec, FloatAxioms.leb_spec.
  unfold SFltb, SFleb. intros Hx Hy.
  rewrite (SFcompare_opp (Prim2SF x) (Prim2SF y)).
  destruct (SFcompare_present _ _ Hx Hy) as [c ->]. by destruct c.
Qed.

Lemma ltb_leb_trans x y z :
  PrimFloat.ltb x y = true → PrimFloat.leb y z = true → PrimFloat.ltb x z = true.
Proof.
  intros Hxy Hyz.
  destruct (ltb_present _ _ Hxy) as [Hx Hy].
  destruct (leb_present _ _ Hyz) as [_ Hz].
  rewrite ltb_not_leb by done. apply negb_true_iff, not_true_is_false.
  intros Hzx. rewrite ltb_not_leb in Hxy by done.
  apply negb_true_iff in Hxy. by rewrite (leb_trans _ _ _ Hyz Hzx) in Hxy.
Qed.

(** A present score is in exactly one of the three tiers, a missing one in
    none. *)
Lemma one_tier (s : float) :
  Z.b2z (PrimFloat.ltb 0.8%float s)
  + Z.b2z (PrimFloat.ltb 0.5%float s && PrimFloat.leb s 0.8%float)
  + Z.b2z (PrimFloat.leb s 0.5%float)
  = Z.b2z (negb (PrimFloat.is_nan s)).
Proof.
  destruct (PrimFloat.is_nan s) eqn:Hn; cbn [negb Z.b2z].
  - assert (PrimFloat.ltb 0.8%float s = false) as ->.
    { apply not_true_is_false. intros [_ ?]%ltb_present. congruence. }
    assert (PrimFloat.ltb 0.5%float s = false) as ->.
    { apply not_true_is_false. intros [_ ?]%ltb_present. congruence. }
    assert (PrimFloat.leb s 0.5%float = false) as ->; [|done].
    apply not_true_is_false. intros [? _]%leb_present. congruence.
  - rewrite (ltb_not_leb 0.8%float s) by (done || by vm_compute).
    rewrite (ltb_not_leb 0.5%float s) by (done || by vm_compute).
    destruct (PrimFloat.leb s 0.5%float) eqn:Hlow.
    + assert (PrimFloat.leb s 0.8%float = true) as ->; [|done].
      apply (leb_trans _ _ _ Hlow). by vm_compute.
    + by destruct (PrimFloat.leb s 0.8%float).
Qed.

Lemma count_b2z (p : row → bool) (d : DataFrame) :
  DataManager.count p d = foldr (λ r acc, Z.b2z (p r) + acc) 0 (rows d).
Proof.
  unfold DataManager.count, len, select. cbn.
  induction (rows d) as [|r rs IH]; [done|].
  rewrite filter_cons. cbn.
  destruct (p r); rewrite ?decide_True by done; rewrite ?decide_False by done;
    cbn [length Z.b2z]; lia.
Qed.

Lemma count_bounds (p : row → bool) (d : DataFrame) :
  0 ≤ DataManager.count p d ≤ len d.
Proof.
  unfold DataManager.count, len, select. cbn.
  pose proof (length_filter (λ r, p r = true) (rows d)). lia.
Qed.

(** X14: on a loaded table [get_score_distribution] counts as [high] the
    rows whose score is above 0.8, as [medium] those whose score is above
    0.5 and at most 0.8, and as [low] those whose score is at most 0.5.
    A row with a present score is in exactly one of the three tiers and a
    row with a missing score in none, so the three counts add up to the
    number of rows whose score is present.  Without a table the counts are
    zero. *)
Theorem score_distribution_counts (df : DataFrame) (self : DataManager.t) :
  (∃ d dist,
      DataManager.data (DataManager.load_data df self) = Some d
      ∧ DataManager.get_score_distribution (DataManager.load_data df self)
        = Ok dist
      ∧ DataManager.high dist
        = Z.of_nat (length (filter (λ r, PrimFloat.ltb 0.8 (score r) = true)
                                   (rows d)))
      ∧ DataManager.medium dist
        = Z.of_nat (length (filter (λ r, PrimFloat.ltb 0.5 (score r) = true
                                         ∧ PrimFloat.leb (score r) 0.8 = true)
                                   (rows d)))
      ∧ DataManager.low dist
        = Z.of_nat (length (filter (λ r, PrimFloat.leb (score r) 0.5 = true)
                                   (rows d)))
      ∧ (∀ r : row,
           Z.b2z (PrimFloat.ltb 0.8 (score r))
           + Z.b2z (PrimFloat.ltb 0.5 (score r) && PrimFloat.leb (score r) 0.8)
           + Z.b2z (PrimFloat.leb (score r) 0.5)
           = Z.b2z (negb (missing_score r)))
      ∧ DataManager.high dist + DataManager.medium dist + DataManager.low dist
        = DataManager.count (λ r, negb (missing_score r)) d
      ∧ 0 ≤ DataManager.high dist ∧ 0 ≤ DataManager.medium dist
      ∧ 0 ≤ DataManager.low dist
      ∧ DataManager.high dist + DataManager.medium dist + DataManager.low dist
        ≤ len d)
  ∧ DataManager.get_score_distribution
      (DataManager.Manager None (DataManager.reviewed_items self))
    = Ok (DataManager.ScoreDistribution 0 0 0).
Proof.
  split; [|done].
  destruct (load_data_loaded df self) as [d Hd].
  destruct (load_data_score _ _ _ Hd) as [Hc Hrows].
  unfold DataManager.get_score_distribution. rewrite Hd.
  rewrite decide_True by done.
  assert (existsb is_str (column "score" d) = false) as ->.
  { apply not_true_is_false. intros (c & Hin & Hstr)%existsb_exists.
    apply list_elem_of_In, list_elem_of_fmap in Hin as (r & -> & Hr).
    rewrite Forall_forall in Hrows. by rewrite Hrows in Hstr. }
  eexists d, _.
  split_and!; [done|reflexivity|done| |done| | |apply count_bounds..|].
  - cbn [DataManager.medium]. unfold DataManager.count, len, select.
    cbn [rows]. do 2 f_equal. apply list_filter_iff. intros r.
    unfold score. by rewrite andb_true_iff.
  - intros r. apply one_tier.
  - cbn [DataManager.high DataManager.medium DataManager.low].
    rewrite !count_b2z. unfold missing_score, score. clear Hrows.
    induction (rows d) as [|r rs IH]; [done|]. cbn [foldr].
    pose proof (one_tier (num (row_cell r "score"))) as Hr. lia.
  - cbn [DataManager.high DataManager.medium DataManager.low].
    rewrite !count_b2z. unfold len. clear Hrows.
    induction (rows d) as [|r rs IH]; [done|]. cbn [foldr length].
    pose proof (one_tier (num (row_cell r "score"))) as Hr.
    destruct (negb _) in Hr; cbn in Hr; lia.
Qed.

(** X15: for every score, missing ones too, the three score helpers of
    [utils.py] agree on the tier: [apply_score_styling] has the background
    of [get_color_for_score] and the border of
    [get_border_color_for_score].  The colour is green exactly for a score
    above 0.8 and red exactly for a score that is not above 0.5, so a
    missing score is red.  The colour follows the order of the scores: a
    score at least as large as a green one is green, a score at most as
    large as a red one is red. *)
Theorem score_colors (s t : float) :
  Utils.background_color (Utils.apply_score_styling s) = Utils.get_color_for_score s
  ∧ Utils.border_color (Utils.apply_score_styling s)
    = Utils.get_border_color_for_score s
  ∧ (Utils.get_color_for_score s = green ↔ PrimFloat.ltb 0.8 s = true)
  ∧ (Utils.get_color_for_score s = red ↔ PrimFloat.ltb 0.5 s = false)
  ∧ (PrimFloat.is_nan s = true → Utils.get_color_for_score s = red)
  ∧ (PrimFloat.leb s t = true →
     (Utils.get_color_for_score s = green → Utils.get_color_for_score t = green)
     ∧ (Utils.get_color_for_score t = red → Utils.get_color_for_score s = red)).
Proof.
  unfold Utils.apply_score_styling, Utils.get_color_for_score,
    Utils.get_border_color_for_score, green, red.
  split_and!.
  - by destruct (PrimFloat.ltb 0.8 s), (PrimFloat.ltb 0.5 s).
  - by destruct (PrimFloat.ltb 0.8 s), (PrimFloat.ltb 0.5 s).
  - destruct (PrimFloat.ltb 0.8 s); [done|].
    split; [|done]. destruct (PrimFloat.ltb 0.5 s); intros Heq; discriminate Heq.
  - destruct (PrimFloat.ltb 0.8 s) eqn:Hs.
    + assert (PrimFloat.ltb 0.5 s = true) as ->.
      { destruct (ltb_present _ _ Hs) as [_ Hn].
        rewrite ltb_not_leb by (done || by vm_compute).
        apply negb_true_iff, not_true_is_false. intros Hlow.
        rewrite ltb_not_leb in Hs by (done || by vm_compute).
        apply negb_true_iff in Hs.
        rewrite (leb_trans s 0.5 0.8 Hlow) in Hs by (by vm_compute). done. }
      split; intros Heq; discriminate Heq.
    + destruct (PrimFloat.ltb 0.5 s); [|done].
      split; intros Heq; discriminate Heq.
  - intros Hn.
    assert (Hlt : ∀ a, PrimFloat.ltb a s = false).
    { intros a. apply not_true_is_false. intros [_ ?]%ltb_present. congruence. }
    by rewrite !Hlt.
  - intros Hst. split.
    + destruct (PrimFloat.ltb 0.8 s) eqn:Hs.
      * by rewrite (ltb_leb_trans _ _ _ Hs Hst).
      * destruct (PrimFloat.ltb 0.5 s); intros Heq; discriminate Heq.
    + destruct (PrimFloat.ltb 0.8 t) eqn:Ht; [intros Heq; discriminate Heq|].
      destruct (PrimFloat.ltb 0.5 t) eqn:Ht'; [intros Heq; discriminate Heq|].
      intros _.
      destruct (PrimFloat.ltb 0.8 s) eqn:Hs.
      { by rewrite (ltb_leb_trans _ _ _ Hs Hst) in Ht. }
      destruct (PrimFloat.ltb 0.5 s) eqn:Hs'; [|done].
      by rewrite (ltb_leb_trans _ _ _ Hs' Hst) in Ht'.
Qed.

(** X16: [apply_score_styling] of [app.py] gives green exactly when
    [get_color_for_score] of [utils.py] does, that is above 0.8; it has no
    yellow: every other present score is red; a missing score is grey for
    the first and red for the second. *)
Theorem app_score_color (s : float) :
  (App.apply_score_styling s = green ↔ Utils.get_color_for_score s = green)
  ∧ (if PrimFloat.is_nan s then
       App.apply_score_styling s = "#f8f9fa" ∧ Utils.get_color_for_score s = red
     else
       App.apply_score_styling s = green ∨ App.apply_score_styling s = red).
Proof.
  unfold App.apply_score_styling, Utils.get_color_for_score, green, red.
  destruct (PrimFloat.is_nan s) eqn:Hn.
  - assert (Hlt : ∀ a, PrimFloat.ltb a s = false).
    { intros a. apply not_true_is_false. intros [_ ?]%ltb_present. congruence. }
    rewrite !Hlt. done.
  - destruct (PrimFloat.ltb 0.8 s); [by auto|].
    split; [|by auto]. split; [intros Heq; discriminate Heq|].
    destruct (PrimFloat.ltb 0.5 s); intros Heq; discriminate Heq.
Qed.

Set Warnings "inexact-float".

End score_tiers.

(** ** Validation and summary *)

Section validation.
Context `{PyRuntime} `{PyNumeric}.
Import Utils.

Lemma isna_num c : is_str c = false → isna c = PrimFloat.is_nan (num c).
Proof. destruct c as [|f|[]]; done. Qed.

(** X17: [validate_csv_structure] finds a table valid exactly when it has
    the five required columns; for every required column that is missing
    the messages hold the line that names it.  It reports and never
    rejects: there are at most seven messages, whatever the table. *)
Theorem validate_required_columns (df : DataFrame) :
  ((validate_csv_structure df).1 = true
   ↔ ∀ c, c ∈ required_columns → c ∈ columns df)
  ∧ (∀ c, c ∈ required_columns → c ∉ columns df →
          ("Missing required column: " ++ c)%string ∈ (validate_csv_structure df).2)
  ∧ (length (validate_csv_structure df).2 ≤ 7)%nat.
Proof.
  unfold validate_csv_structure. cbn [fst snd].
  set (missing := filter (λ col, col ∉ columns df) required_columns).
  split_and!.
  - rewrite bool_decide_eq_true, length_map. split.
    + intros Hlen c Hc. destruct (decide (c ∈ columns df)) as [|Hno]; [done|].
      assert (Hin : c ∈ missing) by by apply list_elem_of_filter.
      destruct missing; [by apply elem_of_nil in Hin|done].
    + intros Hall. destruct missing as [|c cs] eqn:Hm; [done|].
      assert (Hin : c ∈ missing) by (rewrite Hm; apply list_elem_of_here).
      apply list_elem_of_filter in Hin as [Hno Hc]. by apply Hall in Hc.
  - intros c Hc Hno. apply elem_of_app. left. apply list_elem_of_fmap.
    exists c. split; [done|]. by apply list_elem_of_filter.
  - rewrite length_app, length_map.
    assert (length missing ≤ 5)%nat by apply (length_filter _ required_columns).
    assert (∀ w : list string, length w ≤ 1 →
              length match filter (λ col, col ∉ columns df) expected_columns with
                     | [] => w
                     | _ => w ++ [("Optional columns not found: "
                                   ++ String.concat ", "
                                        (filter (λ col, col ∉ columns df)
                                                expected_columns))%string]
                     end ≤ 2)%nat as Hw.
    { intros w Hlen. destruct (filter _ expected_columns); [lia|].
      rewrite length_app. cbn. lia. }
    etrans; [apply Nat.add_le_mono; [done|apply Hw]|lia].
    case_decide; [|cbn; lia]. destruct (existsb _ _); cbn; lia.
Qed.

(** X18: the warning on scores that could not be converted is among the
    messages exactly when the table has a [score] column and [load_data]
    leaves a row of it with a missing score: the validation reads the
    column as the loader does. *)
Theorem validate_score_warning (df : DataFrame) (self : DataManager.t) :
  ∃ d, DataManager.data (DataManager.load_data df self) = Some d
       ∧ (score_warning ∈ (validate_csv_structure df).2
          ↔ "score" ∈ columns df ∧ ∃ r, r ∈ rows d ∧ missing_score r = true).
Proof.
  destruct (load_data_loaded df self) as [d Hd]. exists d. split; [done|].
  unfold validate_csv_structure. cbn [snd].
  set (warnings := if decide ("score" ∈ columns df) then _ else []).
  assert (Hopt : ∀ w : list string,
            score_warning
            ∈ match filter (λ col, col ∉ columns df) expected_columns with
              | [] => w
              | _ => w ++ [("Optional columns not found: "
                            ++ String.concat ", "
                                 (filter (λ col, col ∉ columns df)
                                         expected_columns))%string]
              end
            ↔ score_warning ∈ w).
  { intros w. destruct (filter _ expected_columns); [done|].
    rewrite elem_of_app, list_elem_of_singleton. split; [|tauto].
    intros [?|Heq]; [done|]. discriminate Heq. }
  rewrite elem_of_app, Hopt.
  assert (Hmissing : score_warning
            ∉ map (λ col, ("Missing required column: " ++ col)%string)
                  (filter (λ col, col ∉ columns df) required_columns)).
  { intros (c & Heq & _)%list_elem_of_fmap. discriminate Heq. }
  unfold warnings. clear warnings. revert Hd. unfold DataManager.load_data.
  cbn [DataManager.data]. intros [= <-].
  destruct (decide ("score" ∈ columns df)) as [Hscore|Hscore].
  - destruct (existsb isna _) eqn:Hna.
    + split; [intros _|intros _; right; apply list_elem_of_here].
      split; [done|].
      apply existsb_exists in Hna as (c & Hc & Hna).
      apply list_elem_of_In, list_elem_of_fmap in Hc as (c0 & -> & Hc0).
      unfold column in Hc0. apply list_elem_of_fmap in Hc0 as (r & -> & Hr).
      eexists. split; [apply list_elem_of_fmap; eauto|].
      unfold missing_score, score, row_cell. cbn. rewrite lookup_insert_eq. cbn.
      rewrite <- isna_num; [done|].
      apply to_numeric_not_str. unfold column. apply list_elem_of_fmap. eauto.
    + split; [intros [?|Hin]; [done|by apply elem_of_nil in Hin]|].
      intros [_ (r' & Hr' & Hmiss)]. exfalso.
      apply list_elem_of_fmap in Hr' as (r & -> & Hr).
      unfold missing_score, score, row_cell in Hmiss. cbn in Hmiss.
      rewrite lookup_insert_eq in Hmiss. cbn in Hmiss.
      assert (Hin : row_cell r "score" ∈ column "score" df)
        by (unfold column; apply list_elem_of_fmap; eauto).
      rewrite <- isna_num in Hmiss by by apply to_numeric_not_str.
      apply not_true_iff_false in Hna. apply Hna, existsb_exists.
      eexists. split; [|exact Hmiss].
      apply list_elem_of_In, list_elem_of_fmap. eauto.
  - split; [intros [?|Hin]; [done|by apply elem_of_nil in Hin]|].
    by intros [? _].
Qed.

Lemma length_unique col : (length (unique col) ≤ length col)%nat.
Proof.
  induction col as [|c col IH]; [done|]. cbn.
  pose proof (length_filter (λ c', py_eq c c' = false) (unique col)). lia.
Qed.

Lemma nunique_bounds c df : 0 ≤ nunique (column c df) ≤ len df.
Proof.
  unfold nunique, len, column.
  pose proof (length_unique (filter (λ c, isna c = false)
                                    (map (λ r, row_cell r c) (rows df)))).
  pose proof (length_filter (λ c, isna c = false)
                            (map (λ r, row_cell r c) (rows df))) as Hf.
  rewrite length_map in Hf. lia.
Qed.

Lemma filter_index (P : Z → Prop) `{∀ x, Decision (P x)} df :
  filter P (index df) = index (Frame (columns df) (filter (λ r, P (label r)) (rows df))).
Proof.
  unfold index. cbn. induction (rows df) as [|r rs IH]; [done|].
  cbn [map]. rewrite !filter_cons. case_decide; cbn; by rewrite IH.
Qed.

Set Warnings "-inexact-float".

(** X19: [get_summary_stats] counts as reviewed the rows of the table whose
    label is in the review set, as many as the 'Reviewed' selection of the
    table has, so never more than [total_records]; the numbers of distinct
    languages and qualifications are within [0, total_records]; the score
    entries are there exactly when the table has a [score] column, and no
    row counts both as a high and as a low score. *)
Theorem summary_stats_counts (df : DataFrame) (reviewed_items : gset Z) :
  let stats := get_summary_stats df reviewed_items in
  total_records stats = len df
  ∧ reviewed_records stats = len (select (index_isin reviewed_items) df)
  ∧ 0 ≤ reviewed_records stats ≤ total_records stats
  ∧ 0 ≤ languages stats ≤ total_records stats
  ∧ 0 ≤ qualifications stats ≤ total_records stats
  ∧ match score_entries stats with
    | Some e => "score" ∈ columns df
                ∧ 0 ≤ high_scores e ∧ 0 ≤ low_scores e
                ∧ high_scores e + low_scores e ≤ total_records stats
    | None => "score" ∉ columns df
    end.
Proof.
  cbn zeta. unfold get_summary_stats.
  cbn [total_records reviewed_records languages qualifications score_entries].
  assert (Hrev : Z.of_nat (length (filter (λ idx, idx ∈ reviewed_items) (index df)))
                 = len (select (index_isin reviewed_items) df)).
  { rewrite (filter_index (λ idx, idx ∈ reviewed_items)). unfold index, len, select.
    cbn. rewrite length_map. do 2 f_equal. apply list_filter_iff. intros r.
    unfold index_isin. by rewrite bool_decide_eq_true. }
  split; [done|]. split; [exact Hrev|].
  split; [|split; [|split]].
  - rewrite Hrev. apply (count_bounds (index_isin reviewed_items) df).
  - case_decide; [apply nunique_bounds|unfold len; lia].
  - case_decide; [apply nunique_bounds|unfold len; lia].
  - case_decide as Hscore; [|done]. split; [done|].
    cbn [high_scores low_scores].
    set (series := map (to_numeric (column "score" df)) (column "score" df)).
    assert (Hlen : length series = length (rows df))
      by (unfold series, column; by rewrite !length_map).
    assert (Hsum : (length (filter (λ c, PrimFloat.ltb 0.8 (num c) = true) series)
                    + length (filter (λ c, PrimFloat.leb (num c) 0.5 = true) series)
                    ≤ length series)%nat).
    { clear Hlen. induction series as [|c cs IH]; [done|].
      rewrite !filter_cons. pose proof (one_tier (num c)) as Hone.
      destruct (PrimFloat.ltb 0.8 (num c)) eqn:Hhi,
               (PrimFloat.leb (num c) 0.5) eqn:Hlo; cbn in Hone.
      all: repeat case_decide; try done; cbn [length]; try lia.
      destruct (_ && _), (negb _); cbn in Hone; lia. }
    unfold len. lia.
Qed.

Set Warnings "inexact-float".

End validation.

(** ** The handlers of the app *)

Section app_handlers.
Context `{PyRuntime}.

Lemma foldl_mark (sel : list Z) : ∀ X : gset Z,
  foldl (λ s idx, {[idx]} ∪ s) X sel = X ∪ list_to_set sel.
Proof.
  induction sel as [|id sel IH]; intros X; cbn.
  - apply set_eq. intros x. rewrite elem_of_union. split; [tauto|].
    intros [?|Hx]; [done|]. by apply not_elem_of_empty in Hx.
  - rewrite IH. apply set_eq. intros x. rewrite !elem_of_union. tauto.
Qed.

Lemma foldl_unmark (sel : list Z) : ∀ X : gset Z,
  foldl (λ s idx, s ∖ {[idx]}) X sel = X ∖ list_to_set sel.
Proof.
  induction sel as [|id sel IH]; intros X; cbn.
  - apply set_eq. intros x. rewrite elem_of_difference. split; [|tauto].
    intros Hx. split; [done|]. apply not_elem_of_empty.
  - rewrite IH. apply set_eq. intros x.
    rewrite !elem_of_difference, elem_of_union. tauto.
Qed.

(** X20: the bulk buttons of the app: marking a selection adds its labels
    to the review set and unmarking takes them out, whatever was reviewed
    before and however often a label is selected; so marking a selection
    and then unmarking it leaves none of its labels reviewed.  'Clear All
    Reviews' empties the set.  None of the three touches the table. *)
Theorem bulk_review_actions (selected : list Z) (ss : App.session_state) :
  App.reviewed_items (App.mark_selected selected ss)
  = App.reviewed_items ss ∪ list_to_set selected
  ∧ App.reviewed_items (App.unmark_selected selected ss)
    = App.reviewed_items ss ∖ list_to_set selected
  ∧ App.reviewed_items (App.unmark_selected selected (App.mark_selected selected ss))
    = App.reviewed_items ss ∖ list_to_set selected
  ∧ App.reviewed_items (App.clear_all_reviews ss) = ∅
  ∧ App.current_data (App.mark_selected selected ss) = App.current_data ss
  ∧ App.current_data (App.unmark_selected selected ss) = App.current_data ss
  ∧ App.current_data (App.clear_all_reviews ss) = App.current_data ss.
Proof.
  unfold App.mark_selected, App.unmark_selected, App.clear_all_reviews. cbn.
  rewrite !foldl_mark, !foldl_unmark. split_and!; try done.
  apply set_eq. intros x. rewrite !elem_of_difference, elem_of_union. tauto.
Qed.

Lemma selected_from_spec (page_rows : list row) (edited : list bool) (id : Z) :
  ∀ i, id ∈ App.selected_from i page_rows edited
       ↔ ∃ j r, page_rows !! j = Some r ∧ edited !! (i + j)%nat = Some true
                ∧ label r = id.
Proof.
  induction page_rows as [|r0 rs IH]; intros i; cbn [App.selected_from].
  - split; [by intros ?%elem_of_nil|]. by intros (j & r & ? & _).
  - rewrite elem_of_app, IH. split.
    + intros [Hhere|(j & r & Hj & He & Hl)].
      * case_decide; [|by apply elem_of_nil in Hhere].
        destruct (edited !! i) as [[]|] eqn:Hi;
          try (by apply elem_of_nil in Hhere).
        apply list_elem_of_singleton in Hhere as ->.
        exists 0%nat, r0. by rewrite Nat.add_0_r.
      * exists (S j), r. split_and!; [done| |done].
        by replace (i + S j)%nat with (S i + j)%nat by lia.
    + intros ([|j] & r & Hj & He & Hl).
      * left. cbn in Hj. injection Hj as ->. rewrite Nat.add_0_r in He.
        rewrite decide_True by by eapply lookup_lt_Some.
        rewrite He. apply list_elem_of_singleton. done.
      * right. exists j, r. split_and!; [done| |done].
        by replace (S i + j)%nat with (i + S j)%nat by lia.
Qed.

(** X21: the rows a bulk action works on are the rows of the page whose box
    is checked: a label is selected exactly when a row at some position of
    the page carries it and the edited table has the box of that position
    checked.  So marking the selection reviews labels of the page shown
    and no other. *)
Theorem selection_is_on_page
    (page_data : DataFrame) (edited_select : list bool) (ss : App.session_state) :
  (∀ id, id ∈ App.selected_indices page_data edited_select
         ↔ ∃ i r, rows page_data !! i = Some r
                  ∧ edited_select !! i = Some true ∧ label r = id)
  ∧ ∀ id, id ∈ App.reviewed_items
                 (App.mark_selected (App.selected_indices page_data edited_select) ss) →
          id ∈ App.reviewed_items ss ∨ id ∈ index page_data.
Proof.
  assert (Hsel : ∀ id, id ∈ App.selected_indices page_data edited_select
            ↔ ∃ i r, rows page_data !! i = Some r
                     ∧ edited_select !! i = Some true ∧ label r = id).
  { intros id. unfold App.selected_indices. by rewrite selected_from_spec. }
  split; [exact Hsel|].
  intros id. unfold App.mark_selected. cbn. rewrite foldl_mark.
  rewrite elem_of_union, elem_of_list_to_set, Hsel.
  intros [?|(i & r & Hi & _ & <-)]; [by left|right].
  unfold index. apply list_elem_of_fmap. exists r. split; [done|].
  by eapply list_elem_of_lookup_2.
Qed.

Lemma working_table_score current :
  if decide ("score" ∈ columns (App.working_table current)) then
    numeric_score (App.working_table current)
  else True.
Proof.
  case_decide as Hc; [|done]. revert Hc. unfold App.working_table.
  case_decide; [|done]. intros _.
  split; [apply assign_has_column|apply numeric_score_rows].
Qed.

(** X22: with the languages and qualifications chosen among the options
    the multi-selects offer, the filter of the app raises nothing but
    [re.error], for a search term the regular-expression engine rejects:
    it meets no missing column and no score that is not a number. *)
Theorem app_filter_exceptions
    (w : App.widgets) (reviewed : gset Z) (current : DataFrame) (e : exn) :
  App.selected_languages w ⊆ App.language_options (App.working_table current) →
  App.selected_qualifications w
    ⊆ App.qualification_options (App.working_table current) →
  App.apply_filters w reviewed (App.working_table current) = Raise e →
  e = ReError (App.search_term w) ∧ re_compile (App.search_term w) = None.
Proof.
  set (d := App.working_table current). intros Hlang Hqual.
  pose proof (working_table_score current) as Hnum. fold d in Hnum.
  unfold App.apply_filters, App.score_range.
  change (?m ≫= ?k) with (mbind k m). unfold mbind, result_bind.
  assert (Hl : match App.selected_languages w with
               | [] => Ok d
               | vals => isin_filter "language" vals d
               end
               = Ok (select (λ r, match App.selected_languages w with
                                  | [] => true
                                  | vals => isin vals (row_cell r "language")
                                  end) d)).
  { destruct (App.selected_languages w) as [|v vs]; [by rewrite select_true|].
    rewrite isin_filter_cases. rewrite decide_True; [done|].
    unfold App.language_options in Hlang.
    destruct (decide ("language" ∈ columns d)) as [|Hno]; [done|].
    specialize (Hlang v (list_elem_of_here _ _)). by apply elem_of_nil in Hlang. }
  rewrite Hl. clear Hl. set (d1 := select _ d).
  assert (Hq : match App.selected_qualifications w with
               | [] => Ok d1
               | vals => isin_filter "qualification_name" vals d1
               end
               = Ok (select (λ r, match App.selected_qualifications w with
                                  | [] => true
                                  | vals => isin vals (row_cell r "qualification_name")
                                  end) d1)).
  { destruct (App.selected_qualifications w) as [|v vs]; [by rewrite select_true|].
    rewrite isin_filter_cases. rewrite decide_True; [done|].
    unfold App.qualification_options in Hqual.
    destruct (decide ("qualification_name" ∈ columns d)) as [|Hno]; [done|].
    specialize (Hqual v (list_elem_of_here _ _)). by apply elem_of_nil in Hqual. }
  rewrite Hq. clear Hq. set (d2 := select _ d1).
  change (columns d2) with (columns d).
  destruct (decide ("score" ∈ columns d)) as [Hs|Hs].
  - rewrite score_between_within by (unfold d2, d1; by repeat apply numeric_select).
    destruct (App.search_term w) as [|a t] eqn:Ht; [by repeat case_decide|].
    by intros ?%search_raises.
  - destruct (App.search_term w) as [|a t] eqn:Ht; [by repeat case_decide|].
    by intros ?%search_raises.
Qed.

End app_handlers.

(** ** Exports and pages of the app *)

Section app_views.

Lemma assign_rows_status (b : bool) (P : row → Prop) df :
  Forall P (rows df) →
  Forall (λ r, ∃ r0, P r0 ∧ label r = label r0
                     ∧ cells r !! "reviewed_status" = Some (CBool b))
         (rows (assign "reviewed_status" (λ _, CBool b) df)).
Proof.
  intros HP. unfold assign. cbn. apply Forall_forall.
  intros r (r0 & -> & Hr0)%list_elem_of_fmap. exists r0.
  rewrite Forall_forall in HP. split_and!; [by apply HP|done|].
  cbn. apply lookup_insert_eq.
Qed.

Lemma loc_rows (labels : list Z) df :
  Forall (λ r, label r ∈ labels ∧ r ∈ rows df) (rows (loc labels df)).
Proof.
  unfold loc. cbn. apply Forall_forall. intros r Hr.
  apply list_elem_of_bind in Hr as (l & Hr & Hl).
  apply list_elem_of_filter in Hr as [<- Hr]. done.
Qed.

Lemma loc_not_empty (labels : list Z) df l :
  l ∈ labels → l ∈ index df → rows (loc labels df) ≠ [].
Proof.
  intros Hl (r & -> & Hr)%list_elem_of_fmap Hnil.
  assert (Hin : r ∈ rows (loc labels df)).
  { unfold loc. cbn. apply list_elem_of_bind. exists (label r).
    split; [|done]. by apply list_elem_of_filter. }
  rewrite Hnil in Hin. by apply elem_of_nil in Hin.
Qed.

Lemma assign_not_empty c v df : rows df ≠ [] → rows (assign c v df) ≠ [].
Proof. unfold assign. cbn. by destruct (rows df). Qed.

(** X23: a download the app offers is never empty, and every row of it
    carries under [reviewed_status] whether its label is in the review
    set: the constant [True] of the reviewed export and the constant
    [False] of the non-reviewed one are what the full export computes row
    by row. *)
Theorem offered_exports (filtered_df : DataFrame) (reviewed : gset Z) (d : DataFrame) :
  let e := App.export_buttons filtered_df reviewed in
  App.all_filtered e = Some d ∨ App.reviewed_only e = Some d
  ∨ App.non_reviewed_only e = Some d →
  rows d ≠ []
  ∧ Forall (λ r, label r ∈ index filtered_df
                 ∧ cells r !! "reviewed_status"
                   = Some (CBool (bool_decide (label r ∈ reviewed))))
           (rows d).
Proof.
  cbn zeta. unfold App.export_buttons.
  destruct (0 <? len filtered_df) eqn:Hlen; [|by intros [|[|]]].
  cbn [App.all_filtered App.reviewed_only App.non_reviewed_only].
  intros [Hd|[Hd|Hd]].
  - injection Hd as <-. split.
    + apply assign_not_empty. apply Z.ltb_lt in Hlen. unfold len in Hlen.
      destruct (rows filtered_df); [cbn in Hlen; lia|done].
    + unfold assign. cbn. apply Forall_forall.
      intros r (r0 & -> & Hr0)%list_elem_of_fmap. cbn. split.
      * unfold index. apply list_elem_of_fmap. eauto.
      * by rewrite lookup_insert_eq.
  - destruct (filter _ (index filtered_df)) as [|l ls] eqn:Hl; [done|].
    injection Hd as <-. rewrite <- Hl.
    assert (Hin : l ∈ filter (λ idx, idx ∈ reviewed) (index filtered_df))
      by (rewrite Hl; apply list_elem_of_here).
    split.
    + apply assign_not_empty. apply (loc_not_empty _ _ l); [done|].
      by apply list_elem_of_filter in Hin as [_ ?].
    + eapply Forall_impl; [apply assign_rows_status, loc_rows|]. cbn.
      intros r (r0 & [Hr0 Hrows] & Hlab & ->). rewrite Hlab.
      apply list_elem_of_filter in Hr0 as [Hrev Hidx]. split; [done|].
      by rewrite bool_decide_eq_true_2.
  - destruct (filter _ (index filtered_df)) as [|l ls] eqn:Hl; [done|].
    injection Hd as <-. rewrite <- Hl.
    assert (Hin : l ∈ filter (λ idx, idx ∉ reviewed) (index filtered_df))
      by (rewrite Hl; apply list_elem_of_here).
    split.
    + apply assign_not_empty. apply (loc_not_empty _ _ l); [done|].
      by apply list_elem_of_filter in Hin as [_ ?].
    + eapply Forall_impl; [apply assign_rows_status, loc_rows|]. cbn.
      intros r (r0 & [Hr0 Hrows] & Hlab & ->). rewrite Hlab.
      apply list_elem_of_filter in Hr0 as [Hrev Hidx]. split; [done|].
      by rewrite bool_decide_eq_false_2.
Qed.

(** X24: with a page size of the menu, a page within
    [1, ceil(total/size)] holds [min(size, total - (page-1)*size)] rows, at
    least one: every page but the last is full.  A page past the last is
    empty; slicing it raises nothing. *)
Theorem page_sizes (filtered_df : DataFrame) (items_per_page page : Z) :
  items_per_page ∈ App.items_per_page_options →
  1 ≤ page →
  let total := len filtered_df in
  if decide (page ≤ ceil_div total items_per_page) then
    len (App.page_data filtered_df items_per_page page)
    = Z.min items_per_page (total - (page - 1) * items_per_page)
    ∧ 1 ≤ len (App.page_data filtered_df items_per_page page)
  else rows (App.page_data filtered_df items_per_page page) = [].
Proof.
  intros Hsize%items_per_page_positive Hpage total.
  assert (Hn : 0 ≤ total) by (unfold total, len; lia).
  case_decide as Hlast.
  - destruct (page_data_rows filtered_df items_per_page page Hsize) as [_ Hrows];
      [done|].
    destruct (ceil_div_bound total items_per_page Hsize Hn)
      as [(_ & _ & Hlt)|H0];
      [|rewrite H0 in Hlast; unfold ceil_div in Hlast;
        rewrite Z.div_small in Hlast by lia; lia].
    assert ((page - 1) * items_per_page < total) by nia.
    assert (Hlen : len (App.page_data filtered_df items_per_page page)
                   = Z.min items_per_page (total - (page - 1) * items_per_page)).
    { unfold len at 1. rewrite Hrows. unfold positions.
      rewrite length_take, length_drop. fold total.
      replace (page * items_per_page)
        with ((page - 1) * items_per_page + items_per_page) by lia.
      assert (0 ≤ (page - 1) * items_per_page) by nia.
      set (start := (page - 1) * items_per_page) in *.
      unfold total, len in *. lia. }
    rewrite Hlen. lia.
  - destruct (ceil_div_bound total items_per_page Hsize Hn)
      as [(_ & Hcover & _)|H0].
    + assert (total ≤ (page - 1) * items_per_page) by nia.
      unfold App.page_data, iloc. cbn [rows]. fold total. unfold slice_bound.
      rewrite (proj2 (Z.ltb_ge _ 0)) by lia.
      rewrite (proj2 (Z.ltb_ge _ 0)) by lia.
      replace (Z.to_nat _) with 0%nat by lia. done.
    + unfold App.page_data, iloc. cbn [rows].
      assert (rows filtered_df = []) as ->
        by (unfold total, len in H0; destruct (rows filtered_df);
            [done|cbn in H0; lia]).
      by rewrite drop_nil, take_nil.
Qed.

(** X25: the 'Row #' shown for a row is its place in the filtered view,
    counted from one: the row at position [idx] of page [page] is the row
    of the view at position [row_number start_idx idx - 1], where
    [start_idx = (page - 1) * items_per_page]. *)
Theorem row_number_in_view
    (filtered_df : DataFrame) (items_per_page page : Z) (idx : nat) (r : row) :
  0 ≤ items_per_page → 1 ≤ page →
  rows (App.page_data filtered_df items_per_page page) !! idx = Some r →
  let start_idx := (page - 1) * items_per_page in
  1 ≤ App.row_number start_idx idx ≤ len filtered_df
  ∧ rows filtered_df !! Z.to_nat (App.row_number start_idx idx - 1) = Some r.
Proof.
  intros Hsize Hpage. unfold App.page_data, iloc, App.row_number. cbn [rows].
  set (n := len filtered_df). set (start := (page - 1) * items_per_page).
  assert (0 ≤ start) by (unfold start; nia).
  assert (0 ≤ n) by (unfold n, len; lia).
  unfold slice_bound.
  rewrite (proj2 (Z.ltb_ge start 0)) by lia.
  rewrite (proj2 (Z.ltb_ge _ 0)) by lia.
  intros Hlook. apply lookup_take_Some in Hlook as [Hlook _].
  rewrite lookup_drop in Hlook.
  pose proof (lookup_lt_Some _ _ _ Hlook) as Hlt.
  assert (start ≤ n).
  { destruct (decide (start ≤ n)); [done|].
    rewrite Z.min_r in Hlt by lia. unfold n, len in Hlt. lia. }
  rewrite Z.min_l in Hlook, Hlt by lia. cbn zeta.
  split; [unfold n, len in *; lia|].
  rewrite <- Hlook. f_equal. lia.
Qed.

Lemma str_len_append (a b : string) :
  App.str_len (a ++ b) = (App.str_len a + App.str_len b)%nat.
Proof.
  induction a as [|c a IH]; [done|].
  change (String c a ++ b)%string with (String c (a ++ b)%string).
  cbn [App.str_len]. rewrite IH. by destruct (App.continuation c).
Qed.

Lemma str_len_prefix : ∀ (text : string) (n : nat),
  (n ≤ App.str_len text)%nat → App.str_len (App.str_prefix n text) = n.
Proof.
  induction text as [|c text IH]; intros n Hlen.
  - cbn in *. lia.
  - cbn [App.str_len App.str_prefix] in *.
    destruct (App.continuation c) eqn:Hc.
    + cbn [App.str_len]. rewrite Hc. by apply IH.
    + destruct n as [|n]; [done|].
      cbn [App.str_len]. rewrite Hc, IH; [done|lia].
Qed.

(** The dots that follow the cut start a character of their own, so the
    first [n] characters of the cut text are those of the text. *)
Lemma str_prefix_append : ∀ (text : string) (n : nat),
  (n < App.str_len text)%nat →
  App.str_prefix n (App.str_prefix n text ++ "...") = App.str_prefix n text.
Proof.
  induction text as [|c text IH]; intros n Hlen.
  - cbn in Hlen. lia.
  - cbn [App.str_len App.str_prefix] in *.
    destruct (App.continuation c) eqn:Hc.
    + change (String c ?a ++ "...")%string with (String c (a ++ "...")%string).
      cbn [App.str_prefix]. rewrite Hc, IH; [done|lia].
    + destruct n as [|n]; [done|].
      change (String c ?a ++ "...")%string with (String c (a ++ "...")%string).
      cbn [App.str_prefix]. rewrite Hc, IH; [done|lia].
Qed.

(** X26: a text of the table is shown whole when it has at most [n]
    characters and is otherwise its first [n] characters followed by three
    dots; what is shown has never more than [n + 3] characters.  The
    characters are those Python counts: the code points of the text. *)
Theorem shortened_text (n : nat) (text : string) :
  (App.str_len (App.shortened n text) ≤ n + 3)%nat
  ∧ (if decide (App.str_len text ≤ n)%nat then App.shortened n text = text
     else App.shortened n text = (App.str_prefix n text ++ "...")%string
          ∧ App.str_len (App.str_prefix n text) = n
          ∧ App.str_len (App.shortened n text) = (n + 3)%nat
          ∧ App.str_prefix n (App.shortened n text) = App.str_prefix n text).
Proof.
  unfold App.shortened. case_decide as Hlong.
  - rewrite decide_False by lia.
    assert (Hcut : App.str_len (App.str_prefix n text) = n)
      by (apply str_len_prefix; lia).
    assert (Hlen : App.str_len (App.str_prefix n text ++ "...") = (n + 3)%nat).
    { rewrite str_len_append, Hcut. done. }
    split_and!; [lia|done|done|done|].
    by apply str_prefix_append.
  - rewrite decide_True by lia. split; [lia|done].
Qed.

End app_views.

(** * The theorems at sample inputs *)

#[local] Existing Instance sample_runtime.

Lemma search_parenthesis_raises_sample :
  re_compile "(" = None
  ∧ DataManager.filter_data (search_filters "(")
      (DataManager.load_data sample_table
         (DataManager.__init__ (DataManager.Session None)))
    = Raise (ReError "(").
Proof.
  assert (Hre : re_compile "(" = None) by reflexivity.
  split; [exact Hre|].
  destruct (search_parenthesis_raises Hre) as (_ & Hraise & _).
  exact Hraise.
Defined.

Lemma missing_score_fallback_sample :
  "score" ∉ columns sample_table
  ∧ ∃ d, DataManager.data
           (DataManager.load_data sample_table (DataManager.Manager None ∅))
         = Some d
         ∧ Forall (λ r, score r = 0.5%float) (rows d)
         ∧ DataManager.filter_data (score_filters 0%float 1%float)
             (DataManager.load_data sample_table (DataManager.Manager None ∅))
           = Ok d.
Proof.
  assert (Hno : "score" ∉ columns sample_table) by compute_done.
  split; [exact Hno|].
  destruct (missing_score_fallback sample_table
              (DataManager.Manager None ∅) 0%float 1%float
              (slider_only 0%float 1%float) ∅ Hno)
    as [(d & Hd & _ & _ & Hhalf & Hf) _].
  exists d. split_and!; [exact Hd|exact Hhalf|exact Hf].
Defined.

Lemma upload_parse_failure_sample :
  read_csv [] = Raise (CsvError "No columns to parse from file")
  ∧ App.upload (Some []) (App.Session (Some sample_table) {[0]})
    = (App.Session (Some sample_table) {[0]},
       [App.st_error_loading (CsvError "No columns to parse from file")],
       App.Return).
Proof.
  split; [reflexivity|].
  apply upload_parse_failure. reflexivity.
Defined.


(** ** The further properties at sample inputs *)

#[local] Existing Instance sample_numeric.

Lemma review_stats_bounds_sample :
  let self := DataManager.Manager (Some sample_table) {[0]} in
  DataManager.data self = Some sample_table
  ∧ (∀ id, id ∈ DataManager.reviewed_items self → id ∈ index sample_table)
  ∧ 0 ≤ DataManager.pending (DataManager.get_review_stats self).
Proof.
  set (self := DataManager.Manager (Some sample_table) {[0]}).
  assert (Hd : DataManager.data self = Some sample_table) by reflexivity.
  assert (Hsub : ∀ id, id ∈ DataManager.reviewed_items self → id ∈ index sample_table).
  { intros id Hid. unfold self in Hid. cbn in Hid.
    apply elem_of_singleton in Hid as ->. compute_done. }
  split_and!; [exact Hd|exact Hsub|].
  destruct (review_stats_bounds self sample_table Hd Hsub) as (_ & _ & Hp & _).
  exact Hp.
Defined.

Lemma filter_data_cut_sample :
  let self := DataManager.load_data sample_table (DataManager.Manager None ∅) in
  let d := DataManager.get_data self in
  DataManager.data self = Some d
  ∧ DataManager.filter_data default_filters self = Ok d
  ∧ sublist (rows d) (rows d).
Proof.
  set (self := DataManager.load_data sample_table (DataManager.Manager None ∅)).
  set (d := DataManager.get_data self).
  assert (Hd : DataManager.data self = Some d) by reflexivity.
  assert (Hf : DataManager.filter_data default_filters self = Ok d) by reflexivity.
  split_and!; [exact Hd|exact Hf|].
  exact (proj2 (filter_data_cut default_filters self d d Hd Hf)).
Defined.

Lemma filter_data_exceptions_sample :
  let self := DataManager.Manager None ∅ in
  DataManager.filter_data (search_filters "(")
    (DataManager.load_data sample_table self) = Raise (ReError "(")
  ∧ (ReError "(" = KeyError "language"
     ∨ ReError "(" = KeyError "qualification_name"
     ∨ ∃ term, DataManager.search_term (search_filters "(") = Some term
               ∧ re_compile term = None ∧ ReError "(" = ReError term).
Proof.
  assert (Hr : DataManager.filter_data (search_filters "(")
                 (DataManager.load_data sample_table (DataManager.Manager None ∅))
               = Raise (ReError "(")) by reflexivity.
  split; [exact Hr|].
  exact (filter_data_exceptions (search_filters "(") sample_table
           (DataManager.Manager None ∅) (ReError "(") Hr).
Defined.

Lemma review_views_partition_sample :
  let self := DataManager.Manager None {[0]} in
  let all := DataManager.get_data (DataManager.load_data sample_table self) in
  DataManager.filter_data (with_status None default_filters)
    (DataManager.load_data sample_table self) = Ok all
  ∧ DataManager.filter_data (with_status (Some "reviewed") default_filters)
      (DataManager.load_data sample_table self)
    = Ok (select (λ r, bool_decide (label r ∈ ({[0]} : gset Z))) all).
Proof.
  set (self := DataManager.Manager None {[0]}).
  set (all := DataManager.get_data (DataManager.load_data sample_table self)).
  assert (Hall : DataManager.filter_data (with_status None default_filters)
                   (DataManager.load_data sample_table self) = Ok all)
    by reflexivity.
  split; [exact Hall|].
  exact (proj1 (review_views_partition default_filters sample_table self all Hall)).
Defined.

Lemma status_options_ignored_sample :
  "Reviewed" ∈ App.review_status_options
  ∧ DataManager.filter_data (with_status (Some "Reviewed") default_filters)
      (DataManager.Manager (Some sample_table) {[0]})
    = DataManager.filter_data (with_status None default_filters)
        (DataManager.Manager (Some sample_table) {[0]}).
Proof.
  assert (Hin : "Reviewed" ∈ App.review_status_options) by compute_done.
  split; [exact Hin|].
  exact (status_options_ignored default_filters
           (DataManager.Manager (Some sample_table) {[0]}) "Reviewed" Hin).
Defined.

Lemma app_filter_agrees_sample :
  "score" ∈ columns scored_table
  ∧ App.apply_filters (slider_only 0%float 1%float) {[0]}
      (App.working_table scored_table)
    = DataManager.filter_data (kwargs_of (slider_only 0%float 1%float))
        (DataManager.load_data scored_table (DataManager.Manager None {[0]})).
Proof.
  assert (Hin : "score" ∈ columns scored_table) by compute_done.
  split; [exact Hin|].
  exact (app_filter_agrees (slider_only 0%float 1%float) {[0]} scored_table
           None Hin).
Defined.

Lemma app_filter_exceptions_sample :
  let w := App.Widgets [] (0%float, 1%float) [] "All" "(" in
  App.selected_languages w ⊆ App.language_options (App.working_table sample_table)
  ∧ App.selected_qualifications w
      ⊆ App.qualification_options (App.working_table sample_table)
  ∧ App.apply_filters w ∅ (App.working_table sample_table) = Raise (ReError "(")
  ∧ re_compile (App.search_term w) = None.
Proof.
  set (w := App.Widgets [] (0%float, 1%float) [] "All" "(").
  assert (Hl : App.selected_languages w
               ⊆ App.language_options (App.working_table sample_table))
    by (intros x Hx; by apply elem_of_nil in Hx).
  assert (Hq : App.selected_qualifications w
               ⊆ App.qualification_options (App.working_table sample_table))
    by (intros x Hx; by apply elem_of_nil in Hx).
  assert (Hr : App.apply_filters w ∅ (App.working_table sample_table)
               = Raise (ReError "(")) by reflexivity.
  split_and!; [exact Hl|exact Hq|exact Hr|].
  exact (proj2 (app_filter_exceptions w ∅ sample_table (ReError "(") Hl Hq Hr)).
Defined.

Lemma offered_exports_sample :
  let e := App.export_buttons sample_table {[0]} in
  let d := Utils.export_filtered_data sample_table {[0]} in
  (App.all_filtered e = Some d ∨ App.reviewed_only e = Some d
   ∨ App.non_reviewed_only e = Some d)
  ∧ rows d ≠ [].
Proof.
  set (e := App.export_buttons sample_table {[0]}).
  set (d := Utils.export_filtered_data sample_table {[0]}).
  assert (Hd : App.all_filtered e = Some d ∨ App.reviewed_only e = Some d
               ∨ App.non_reviewed_only e = Some d) by (left; reflexivity).
  split; [exact Hd|].
  exact (proj1 (offered_exports sample_table {[0]} d Hd)).
Defined.

Lemma page_sizes_sample :
  25 ∈ App.items_per_page_options ∧ 1 ≤ 1
  ∧ len (App.page_data sample_table 25 1) = 3.
Proof.
  assert (Hsize : 25 ∈ App.items_per_page_options) by compute_done.
  assert (Hpage : 1 ≤ 1) by lia.
  split_and!; [exact Hsize|exact Hpage|].
  pose proof (page_sizes sample_table 25 1 Hsize Hpage) as Hp.
  cbn zeta in Hp. rewrite decide_True in Hp by (by vm_compute).
  destruct Hp as [Hp _]. exact Hp.
Defined.

Lemma row_number_in_view_sample :
  let r := Row 0 {[ "language" := CStr "EN"; "questions" := CStr "f(x) = ?" ]} in
  0 ≤ 25 ∧ 1 ≤ 1
  ∧ rows (App.page_data sample_table 25 1) !! 0%nat = Some r
  ∧ rows sample_table !! Z.to_nat (App.row_number ((1 - 1) * 25) 0 - 1) = Some r.
Proof.
  set (r := Row 0 {[ "language" := CStr "EN"; "questions" := CStr "f(x) = ?" ]}).
  assert (Hsize : 0 ≤ 25) by lia.
  assert (Hpage : 1 ≤ 1) by lia.
  assert (Hrow : rows (App.page_data sample_table 25 1) !! 0%nat = Some r)
    by reflexivity.
  split_and!; [exact Hsize|exact Hpage|exact Hrow|].
  exact (proj2 (row_number_in_view sample_table 25 1 0 r Hsize Hpage Hrow)).
Defined.
